(** * ScanLag / ColonyScanalyser: growth-curve fitting and lattice utilities

    A shallow embedding of
      - [scanlag/utilities.py]             (lattice indices, the average of
                                            dicts, the outlier test),
      - [colonyscanalyser/growth_curve.py] (the [GrowthCurve] mix-in class),
      - [colonyscanalyser/align.py]        (the two passes of [align]),
    together with the properties the specification states about them.

    Modelling conventions.
      - Python [int] is [Z]; [//] and [%] with a positive divisor are
        [Z.div] and [Z.modulo] (both round towards minus infinity).
      - The timestamps and measurements, and the statistics taken of them,
        are real numbers ([R]), finite and not rounded; the nan that the
        statistics of an empty array give is written out where it happens.
      - Where the source can meet an infinity, a nan or an error of the
        floating-point arithmetic (the growth model, the parameters the
        optimizer returns, the durations built from them), a float is a
        finite real, an infinity or nan ([Py.float]): a result beyond the
        largest finite double overflows to an infinity, [math.exp] raises
        OverflowError there, and finite results are not rounded.
      - A raised exception is the [Raise] outcome of the [result] monad.
      - [datetime.timedelta] is a whole number of microseconds, built from
        seconds with the rounding, the range check and the errors of its
        constructor. *)

From Stdlib Require Import List ZArith Bool Lia Reals Lra Permutation Sorted.
Import ListNotations.

(** ** Exceptions and the error monad *)

Inductive exn : Type :=
| ValueError
| IndexError
| ZeroDivisionError
| OverflowError
| RuntimeError
| TypeError.

Inductive result (A : Type) : Type :=
| Ok (a : A)
| Raise (e : exn).

Arguments Ok {A} a.
Arguments Raise {A} e.

Definition bind {A B : Type} (m : result A) (k : A -> result B) : result B :=
  match m with
  | Ok a => k a
  | Raise e => Raise e
  end.

Notation "x <- m ;; k" := (bind m (fun x => k))
  (at level 61, m at next level, right associativity).
Notation "' pat <- m ;; k" := (bind m (fun x => match x with pat => k end))
  (at level 61, pat pattern, m at next level, right associativity).

(** [try: m except e => h] *)
Definition try_except {A : Type} (eqb : exn -> bool) (m : result A) (h : result A)
  : result A :=
  match m with
  | Ok a => Ok a
  | Raise e => if eqb e then h else Raise e
  end.

Definition is_OverflowError (e : exn) : bool :=
  match e with OverflowError => true | _ => false end.

Definition is_RuntimeError (e : exn) : bool :=
  match e with RuntimeError => true | _ => false end.

(** ** scanlag/utilities.py *)

Module Utilities.

Local Open Scope Z_scope.

(** [index_number_to_coordinate(index, lattice)] *)
Definition index_number_to_coordinate (index : Z) (lattice : Z * Z) : result (Z * Z) :=
  let '(lattice_row, lattice_col) := lattice in
  if (index <? 1) || (lattice_row <? 1) || (lattice_col <? 1) then
    Raise ValueError
  else
    let row := ((index - 1) / snd lattice) + 1 in
    let col := ((index - 1) mod snd lattice) + 1 in
    if (row >? lattice_row) || (col >? lattice_col) then
      Raise IndexError
    else
      Ok (row, col).

End Utilities.

(** ** Python built-ins used by the source *)

Module Py.

Local Open Scope Z_scope.

Definition len {A : Type} (l : list A) : Z := Z.of_nat (length l).

(** [l[i]]: a negative index counts from the end; out of range raises
    IndexError. *)
Definition getitem {A : Type} (l : list A) (i : Z) : result A :=
  let j := if i <? 0 then i + len l else i in
  if (j <? 0) || (len l <=? j) then Raise IndexError
  else match nth_error l (Z.to_nat j) with
       | Some a => Ok a
       | None => Raise IndexError
       end.

(** A slice bound is shifted by the length when negative, then clamped to
    [0, len]. *)
Definition slice_bound (n i : Z) : Z :=
  if i <? 0 then Z.max 0 (i + n) else Z.min i n.

(** [l[start:stop]] *)
Definition slice {A : Type} (l : list A) (start stop : Z) : list A :=
  let a := slice_bound (len l) start in
  let b := slice_bound (len l) stop in
  firstn (Z.to_nat (b - a)) (skipn (Z.to_nat a) l).

Local Open Scope R_scope.

Definition Rltb (x y : R) : bool := if Rlt_dec x y then true else false.
Definition Rleb (x y : R) : bool := if Rle_dec x y then true else false.
Definition Rgtb (x y : R) : bool := Rltb y x.

(** [max(l)] and [min(l)]: ValueError on an empty sequence. *)
Definition max (l : list R) : result R :=
  match l with
  | [] => Raise ValueError
  | x :: xs => Ok (fold_left Rmax xs x)
  end.

Definition min (l : list R) : result R :=
  match l with
  | [] => Raise ValueError
  | x :: xs => Ok (fold_left Rmin xs x)
  end.

(** [a / b] on finite numbers. *)
Definition truediv (a b : R) : result R :=
  if Req_dec_T b 0 then Raise ZeroDivisionError else Ok (a / b).

(** [sorted(l)]: a stable sort; [ltb] is the element type's [<]. *)
Fixpoint insert_sorted {A : Type} (ltb : A -> A -> bool) (x : A) (l : list A) : list A :=
  match l with
  | [] => [x]
  | y :: l' => if ltb y x then y :: insert_sorted ltb x l' else x :: y :: l'
  end.

Definition sorted {A : Type} (ltb : A -> A -> bool) (l : list A) : list A :=
  fold_right (insert_sorted ltb) [] l.

(** [math.e] and [math.log]. *)
Definition e : R := exp 1.

Definition log (x : R) : R := ln x.

(** *** Floats

    A Python [float] (and a numpy [float64]) is a finite number, an infinity
    or nan.  The arithmetic is that of IEEE 754 doubles, except that a
    finite result is not rounded and zero carries no sign: a result beyond
    the largest finite double becomes an infinity, an undefined one nan. *)
Definition float_max : R := (2 - / 2 ^ 52) * 2 ^ 1023.

Inductive float : Type :=
| Finite (x : R)
| Infinity (negative : bool)
| NaN.

(** The float for a real result. *)
Definition of_real (x : R) : float :=
  if Rltb float_max (Rabs x) then Infinity (Rltb x 0) else Finite x.

Definition is_zero (x : R) : bool := if Req_dec_T x 0 then true else false.

Definition isfinite (a : float) : bool :=
  match a with Finite _ => true | _ => false end.

(** [- a], [a + b], [a - b], [a * b] *)
Definition fneg (a : float) : float :=
  match a with
  | Finite x => Finite (- x)
  | Infinity negative => Infinity (negb negative)
  | NaN => NaN
  end.

Definition fadd (a b : float) : float :=
  match a, b with
  | NaN, _ | _, NaN => NaN
  | Finite x, Finite y => of_real (x + y)
  | Infinity n, Finite _ => Infinity n
  | Finite _, Infinity m => Infinity m
  | Infinity n, Infinity m => if Bool.eqb n m then Infinity n else NaN
  end.

Definition fsub (a b : float) : float :=
  match a, b with
  | NaN, _ | _, NaN => NaN
  | Finite x, Finite y => of_real (x - y)
  | Infinity n, Finite _ => Infinity n
  | Finite _, Infinity m => Infinity (negb m)
  | Infinity n, Infinity m => if Bool.eqb n m then NaN else Infinity n
  end.

Definition fmul (a b : float) : float :=
  match a, b with
  | NaN, _ | _, NaN => NaN
  | Finite x, Finite y => of_real (x * y)
  | Infinity n, Finite y =>
      if is_zero y then NaN else Infinity (xorb n (Rltb y 0))
  | Finite x, Infinity m =>
      if is_zero x then NaN else Infinity (xorb (Rltb x 0) m)
  | Infinity n, Infinity m => Infinity (xorb n m)
  end.

(** [a / b] on Python floats: a zero divisor raises ZeroDivisionError. *)
Definition fdiv (a b : float) : result float :=
  match b with
  | Finite y =>
      if is_zero y then Raise ZeroDivisionError
      else Ok match a with
              | Finite x => of_real (x / y)
              | Infinity n => Infinity (xorb n (Rltb y 0))
              | NaN => NaN
              end
  | Infinity _ =>
      Ok match a with
         | Finite _ => Finite 0
         | _ => NaN
         end
  | NaN => Ok NaN
  end.

(** [a > b]: false as soon as one side is nan. *)
Definition fgtb (a b : float) : bool :=
  match a, b with
  | NaN, _ | _, NaN => false
  | Finite x, Finite y => Rgtb x y
  | Infinity n, Finite _ => negb n
  | Finite _, Infinity m => m
  | Infinity n, Infinity m => negb n && m
  end.

(** [math.exp(a)]: OverflowError when the exponential of a finite number
    is beyond the largest finite double; an infinity or nan passes through
    without an error. *)
Definition math_exp (a : float) : result float :=
  match a with
  | Finite x =>
      if Rltb float_max (exp x) then Raise OverflowError else Ok (Finite (exp x))
  | Infinity negative => Ok (if negative then Finite 0 else Infinity false)
  | NaN => Ok NaN
  end.

End Py.

(** ** datetime.timedelta

    A duration is a whole number of microseconds (days, seconds and
    microseconds taken together), and durations compare by it. *)

Record timedelta : Type := { total_microseconds : Z }.

(** The largest integer not above [x]; [round(x)], to the nearest integer
    with ties to the even one. *)
Definition floor (x : R) : Z := (up x - 1)%Z.

Definition round_half_even (x : R) : Z :=
  let below := floor x in
  let rest := (x - IZR below)%R in
  if Py.Rltb rest (1 / 2) then below
  else if Py.Rltb (1 / 2) rest then (below + 1)%Z
  else if Z.even below then below else (below + 1)%Z.

(** [timedelta(seconds = s)]: [s] is rounded to the microsecond; nan is
    refused with ValueError, an infinity and a magnitude of more than
    999999999 days with OverflowError. *)
Definition timedelta_seconds (s : Py.float) : result timedelta :=
  match s with
  | Py.NaN => Raise ValueError
  | Py.Infinity _ => Raise OverflowError
  | Py.Finite s =>
      let us := round_half_even (s * 1000000) in
      let days := (us / 86400000000)%Z in
      if (Z.abs days >? 999999999)%Z then Raise OverflowError
      else Ok {| total_microseconds := us |}
  end.

(** [d.total_seconds()]; the quotient is not rounded. *)
Definition total_seconds (d : timedelta) : R :=
  (IZR (total_microseconds d) / 1000000)%R.

Definition timedelta_ltb (a b : timedelta) : bool :=
  (total_microseconds a <? total_microseconds b)%Z.

(** Tuples [(key, value)] compare lexicographically. *)
Definition item_ltb (a b : timedelta * R) : bool :=
  timedelta_ltb (fst a) (fst b)
  || (negb (timedelta_ltb (fst b) (fst a)) && Py.Rltb (snd a) (snd b)).

(** ** numpy and scipy functions used by the source *)

Module Np.

Local Open Scope R_scope.

(** [numpy.diff(a)]: [a[1:] - a[:-1]] *)
Fixpoint diff (a : list R) : list R :=
  match a with
  | x :: (y :: _) as rest => (y - x) :: diff rest
  | _ => []
  end.

Definition sum (a : list R) : R := fold_right Rplus 0 a.

(** [a.mean()] and [a.std()] (population standard deviation).  On an empty
    array numpy returns nan for both; the callers below treat that case
    apart, so these are only read on a non-empty array.  The values are the
    exact ones, where numpy rounds: nothing below rests on two of them
    being exactly equal, except for a single element, whose mean is the
    element and whose deviation is 0 in numpy too. *)
Definition mean (a : list R) : R := sum a / INR (length a).

Definition std (a : list R) : R :=
  sqrt (mean (map (fun x => Rsqr (x - mean a)) a)).

(** [numpy.exp] and [numpy.log] on a float64: no exception, an overflow
    gives an infinity, the logarithm of zero minus infinity. *)
Definition np_exp (a : Py.float) : Py.float :=
  match a with
  | Py.Finite x =>
      if Py.Rltb Py.float_max (exp x) then Py.Infinity false
      else Py.Finite (exp x)
  | Py.Infinity negative =>
      if negative then Py.Finite 0 else Py.Infinity false
  | Py.NaN => Py.NaN
  end.

Definition np_log (a : Py.float) : Py.float :=
  match a with
  | Py.Finite x =>
      if Py.Rltb 0 x then Py.Finite (ln x)
      else if Py.is_zero x then Py.Infinity true
      else Py.NaN
  | Py.Infinity negative => if negative then Py.NaN else Py.Infinity false
  | Py.NaN => Py.NaN
  end.

(** [scipy.special.logsumexp(a)] of a single number: log(sum(exp(a))),
    computed after subtracting the largest element, which is [a] itself,
    or 0 when [a] is not finite. *)
Definition logsumexp (a : Py.float) : Py.float :=
  let a_max := if Py.isfinite a then a else Py.Finite 0 in
  let tmp := np_exp (Py.fsub a a_max) in
  let out := np_log tmp in
  Py.fadd out a_max.

End Np.

(** ** collections.Counter *)

Module Collections.

Section Counter.

Variable K : Type.
Variable K_eq_dec : forall x y : K, {x = y} + {x <> y}.
Variable V : Type.
Variable zero : V.
Variable add : V -> V -> V.

(** A dict in insertion order; a Python dict holds each key once. *)
Definition dict : Type := list (K * V).

Definition keys (d : dict) : list K := map fst d.

(** [d.get(k)] *)
Fixpoint get (d : dict) (k : K) : option V :=
  match d with
  | [] => None
  | (k', v) :: rest => if K_eq_dec k k' then Some v else get rest k
  end.

(** [c[k]] on a Counter: a missing key counts 0. *)
Definition count (c : dict) (k : K) : V :=
  match get c k with
  | Some v => v
  | None => zero
  end.

(** [c[k] = v + c.get(k, 0)]: an existing key keeps its place, a new one
    goes last. *)
Fixpoint accumulate (c : dict) (k : K) (v : V) : dict :=
  match c with
  | [] => [(k, add v zero)]
  | (k', v') :: rest =>
      if K_eq_dec k k' then (k', add v v') :: rest
      else (k', v') :: accumulate rest k v
  end.

(** [Counter.update(mapping)]: an empty counter takes the mapping as it is
    ([dict.update]), otherwise the counts are added key by key. *)
Definition update_mapping (c : dict) (mapping : dict) : dict :=
  match c with
  | [] => mapping
  | _ => fold_left (fun c item => accumulate c (fst item) (snd item)) mapping c
  end.

End Counter.

(** [Counter.update(iterable)]: one more for each element. *)
Definition update_elements {K : Type}
    (K_eq_dec : forall x y : K, {x = y} + {x <> y})
    (c : dict K Z) (elements : list K) : dict K Z :=
  fold_left (fun c k => accumulate K K_eq_dec Z 0%Z Z.add c k 1%Z) elements c.

End Collections.

(** ** scanlag/utilities.py, continued *)

Module UtilitiesRest.

Import Py Collections.

(** The platform integer of numpy: 64 bits, two's complement. *)
Definition wrap_int64 (z : Z) : Z :=
  ((z + 2 ^ 63) mod 2 ^ 64 - 2 ^ 63)%Z.

(** [numpy.prod] over integers that fit the platform integer. *)
Definition prod (a : list Z) : Z :=
  fold_left (fun acc x => wrap_int64 (acc * x)) a 1%Z.

(** [coordinate_to_index_number(coordinate)] *)
Definition coordinate_to_index_number (coordinate : list Z) : Z :=
  prod coordinate.

Section Average.

Variable K : Type.
Variable K_eq_dec : forall x y : K, {x = y} + {x <> y}.

Local Open Scope R_scope.

(** The loop of [average_dicts_values_by_key]: the two counters after
    [dicts]. *)
Definition tally (dicts : list (dict K R)) (sums : dict K R) (counters : dict K Z)
  : dict K R * dict K Z :=
  fold_left
    (fun acc itemset =>
       (update_mapping K K_eq_dec R 0 Rplus (fst acc) itemset,
        update_elements K_eq_dec (snd acc) (keys K R itemset)))
    dicts (sums, counters).

(** The dict comprehension [{x: f(x) for x in xs}], [f] possibly raising. *)
Fixpoint comprehension (f : K -> result R) (xs : list K) : result (dict K R) :=
  match xs with
  | [] => Ok []
  | x :: rest =>
      v <- f x ;;
      tail <- comprehension f rest ;;
      Ok ((x, v) :: tail)
  end.

(** [average_dicts_values_by_key(dicts)] on dicts whose values are floats,
    which [float()] leaves as they are; the sums are not rounded. *)
Definition average_dicts_values_by_key (dicts : list (dict K R))
  : result (dict K R) :=
  let '(sums, counters) := tally dicts [] [] in
  comprehension
    (fun x => truediv (count K K_eq_dec R 0 sums x)
                      (IZR (count K K_eq_dec Z 0%Z counters x)))
    (keys K R sums).

End Average.

End UtilitiesRest.

(** ** scanlag/utilities.py: outliers *)

Module Outliers.

Import Py.
Local Open Scope R_scope.

(** A numpy array of one or of two dimensions; the rows of the latter have
    one length. *)
Inductive ndarray : Type :=
| Array1 (values : list R)
| Array2 (rows : list (list R)).

(** [numpy.median(a)] of a one-dimensional array: the middle of the sorted
    values, or the mean of the two middle ones.  (nan on an empty array;
    below it is only read when there is an observation.) *)
Definition median (a : list R) : R :=
  let ordered := sorted Rltb a in
  let n := length a in
  if Nat.even n
  then (nth (n / 2 - 1) ordered 0 + nth (n / 2) ordered 0) / 2
  else nth (n / 2) ordered 0.

(** Column [j] of a two-dimensional array. *)
Definition column (j : nat) (rows : list (list R)) : list R :=
  map (fun row => nth j row 0) rows.

(** [numpy.median(points, axis = 0)] *)
Definition median_axis0 (rows : list (list R)) : list R :=
  let width := match rows with [] => O | row :: _ => length row end in
  map (fun j => median (column j rows)) (seq 0 width).

(** [numpy.sqrt(numpy.sum((points - median) ** 2, axis = -1))], row by
    row. *)
Definition distance (center row : list R) : R :=
  sqrt (Np.sum (map (fun pm => Rsqr (fst pm - snd pm)) (combine row center))).

(** [0.6745 * diff / med_abs_deviation > thresh], element by element.  A
    zero deviation gives inf for a positive difference, which is above any
    threshold, and nan for a zero difference, which is above none.  The
    score is the exact quotient, where numpy rounds it. *)
Definition above (med_abs_deviation thresh diff : R) : bool :=
  if Req_dec_T med_abs_deviation 0 then Rgtb diff 0
  else Rgtb (0.6745 * diff / med_abs_deviation) thresh.

(** [is_outlier(points, thresh)] *)
Definition is_outlier (points : ndarray) (thresh : R) : list bool :=
  let points :=
    match points with
    | Array1 values => map (fun v => [v]) values
    | Array2 rows => rows
    end in
  let median := median_axis0 points in
  let diff := map (distance median) points in
  let med_abs_deviation := Outliers.median diff in
  map (above med_abs_deviation thresh) diff.

End Outliers.

(** ** Notions used to state the properties of the utilities *)

Module UtilityNotions.

Import Collections.
Local Open Scope R_scope.

Section Keyed.

Variable K : Type.
Variable K_eq_dec : forall x y : K, {x = y} + {x <> y}.

(** The sum of the values the dicts hold for [k]. *)
Fixpoint key_total (dicts : list (dict K R)) (k : K) : R :=
  match dicts with
  | [] => 0
  | d :: rest =>
      match get K K_eq_dec R d k with
      | Some v => v + key_total rest k
      | None => key_total rest k
      end
  end.

(** The number of dicts that hold [k]. *)
Fixpoint key_occurrences (dicts : list (dict K R)) (k : K) : Z :=
  match dicts with
  | [] => 0%Z
  | d :: rest =>
      match get K K_eq_dec R d k with
      | Some _ => (1 + key_occurrences rest k)%Z
      | None => key_occurrences rest k
      end
  end.

(** Every dict holds each of its keys once. *)
Definition well_formed (dicts : list (dict K R)) : Prop :=
  Forall (fun d => NoDup (keys K R d)) dicts.

End Keyed.

(** The number of observations in an array; the values not above a bound;
    the flags that are not set. *)
Definition observations (points : Outliers.ndarray) : nat :=
  match points with
  | Outliers.Array1 values => length values
  | Outliers.Array2 rows => length rows
  end.

Definition not_above (bound : R) (a : list R) : list R :=
  filter (fun x => Py.Rleb x bound) a.

Definition unflagged (flags : list bool) : list bool := filter negb flags.

(** The rows [is_outlier] works on. *)
Definition rows_of (points : Outliers.ndarray) : list (list R) :=
  match points with
  | Outliers.Array1 values => map (fun v => [v]) values
  | Outliers.Array2 rows => rows
  end.

(** Three readings, one far off. *)
Definition readings : list R := [1; 2; 100].

(** Two dicts keyed by integers. *)
Definition first_scan : dict Z R := [(1%Z, 2); (2%Z, 4)].
Definition second_scan : dict Z R := [(2%Z, 6); (3%Z, 1)].

End UtilityNotions.

(** ** colonyscanalyser/growth_curve.py *)

Module GrowthCurve.

Import Py.
Local Open Scope R_scope.

(** The carrying-capacity loop of [estimate_parameters]: the first
    measurement inside [capacity_low, capacity_high], else the value held
    before the loop. *)
Fixpoint first_in_band (capacity_low capacity_high : R) (measurements : list R)
    (carrying_capacity : R) : R :=
  match measurements with
  | [] => carrying_capacity
  | measurement :: rest =>
      if Rleb capacity_low measurement && Rleb measurement capacity_high
      then measurement
      else first_in_band capacity_low capacity_high rest carrying_capacity
  end.

(** The lag-time/growth-rate loop of [estimate_parameters],
    [for i, difference in enumerate(diffs)], entered at index [i] with
    [rest] still to enumerate. *)
Fixpoint inflection_scan (timestamps diffs : list R) (inflection : R)
    (i : Z) (rest : list R) : result (R * R) :=
  match rest with
  | [] => Ok (0, 0)
  | difference :: rest' =>
      if Rgtb difference inflection then
        let i := if (i =? 0)%Z then (i + 1)%Z else i in
        lag_time <- getitem timestamps (i - 1) ;;
        growth_rate <- max (slice diffs (i - 1) (-1)) ;;
        Ok (lag_time, growth_rate)
      else inflection_scan timestamps diffs inflection (i + 1) rest'
  end.

(** [GrowthCurve.estimate_parameters(timestamps, measurements)], returning
    (lag_time, growth_rate, carrying_capacity). *)
Definition estimate_parameters (timestamps measurements : list R)
  : result (R * R * R) :=
  if negb (len timestamps =? len measurements)%Z then Raise ValueError
  else
    let diffs := Np.diff measurements in
    carrying_capacity <- getitem measurements (-1) ;;
    let carrying_capacity :=
      match diffs with
      | [] =>
          (* diffs.std() is nan: no measurement compares inside the band *)
          carrying_capacity
      | _ =>
          let capacity_low := carrying_capacity - Np.std diffs in
          let capacity_high := carrying_capacity + Np.std diffs in
          first_in_band capacity_low capacity_high measurements carrying_capacity
      end in
    let inflection := Np.mean diffs + Np.std diffs in
    '(lag_time, growth_rate) <-
       inflection_scan timestamps diffs inflection 0 diffs ;;
    Ok (lag_time, growth_rate, carrying_capacity).

(** [GrowthCurve.gompertz] on scalar arguments of Python's [float]. *)
Definition gompertz (elapsed_time initial_size lag_time growth_rate
                     carrying_capacity : float) : result float :=
  try_except is_OverflowError
    (rate <- fdiv (fmul growth_rate (Finite e)) carrying_capacity ;;
     scale <- math_exp
                (fneg (Np.logsumexp
                         (fadd (fmul rate (fsub lag_time elapsed_time))
                               (Finite 1)))) ;;
     Ok (fadd initial_size (fmul carrying_capacity scale)))
    (Ok (Finite 0)).

(** *** The [GrowthCurve] object

    [__init_subclass__] gives every concrete class the four name-mangled
    attributes with value None.  Reading [self.__x] finds the class
    attribute until the instance assigns its own; the class attributes are
    never reassigned, so what one instance reads is a field per attribute,
    [None] being Python's None.  [growth_curve_data] is what the derived
    class supplies: a dict from timestamp to measurement, in insertion
    order.  [fit_calls] is not in the source: it counts the runs of
    [fit_growth_curve] that reached their end, to state that a read did
    not fit again. *)
Record instance : Type := {
  __doubling_time : option timedelta;
  __growth_rate : option float;
  __carrying_capacity : option float;
  __lag_time : option timedelta;
  growth_curve_data : list (timedelta * R);
  fit_calls : nat
}.

(** A new instance of a concrete subclass, straight after
    [__init_subclass__]. *)
Definition new_instance (data : list (timedelta * R)) : instance :=
  {| __doubling_time := None;
     __growth_rate := None;
     __carrying_capacity := None;
     __lag_time := None;
     growth_curve_data := data;
     fit_calls := 0 |}.

(** The type of [GrowthCurve.gompertz], the curve handed to the
    optimizer. *)
Definition curve : Type :=
  float -> float -> float -> float -> float -> result float.

Section Fitting.

(** [scipy.optimize.curve_fit(f, xdata, ydata, p0)]: the optimal parameters
    (floats, not necessarily finite) and their covariance, or an exception;
    RuntimeError is the one raised when the least-squares minimisation does
    not converge. *)
Variable covariance : Type.
Variable curve_fit :
  curve -> list R -> list R -> list R -> result (list float * covariance).

(** [GrowthCurve.__fit_curve] *)
Definition __fit_curve (curve_function : curve)
    (timestamps measurements initial_params : list R)
  : result (option (list float * covariance)) :=
  try_except is_RuntimeError
    (fitted <- curve_fit curve_function timestamps measurements initial_params ;;
     Ok (Some fitted))
    (Ok None).

(** [GrowthCurve.fit_growth_curve(self, initial_params = None)].  The
    standard deviations derived from the covariance are bound to a local
    name only and leave no trace in the object.  The duration of the lag
    time is built before the first attribute is assigned. *)
Definition fit_growth_curve (self : instance) (initial_params : option (list R))
  : result instance :=
  let timestamps :=
    map total_seconds (sorted timedelta_ltb (map fst (growth_curve_data self))) in
  let measurements := map snd (sorted item_ltb (growth_curve_data self)) in
  '(lag_time, growth_rate, carrying_capacity) <-
     estimate_parameters timestamps measurements ;;
  initial_params <-
    match initial_params with
    | None =>
        initial_size <- min measurements ;;
        Ok [initial_size; lag_time; growth_rate; carrying_capacity]
    | Some params => Ok params
    end ;;
  results <- __fit_curve gompertz timestamps measurements initial_params ;;
  '(lag_time, growth_rate, carrying_capacity) <-
    match results with
    | Some (popt, conf) =>
        match popt with
        | [_; lag_time; growth_rate; carrying_capacity] =>
            Ok (lag_time, growth_rate, carrying_capacity)
        | _ => Raise ValueError
        end
    | None => Ok (Finite 0, Finite 0, Finite 0)
    end ;;
  lag_time <- timedelta_seconds lag_time ;;
  Ok {| __doubling_time := __doubling_time self;
        __growth_rate := Some growth_rate;
        __carrying_capacity := Some carrying_capacity;
        __lag_time := Some lag_time;
        growth_curve_data := growth_curve_data self;
        fit_calls := S (fit_calls self) |}.

(** The properties read an attribute, fit first when it is None, and
    return the attribute together with the object as it is afterwards. *)
Definition carrying_capacity (self : instance) : result (option float * instance) :=
  self <- match __carrying_capacity self with
          | None => fit_growth_curve self None
          | Some _ => Ok self
          end ;;
  Ok (__carrying_capacity self, self).

Definition growth_rate (self : instance) : result (option float * instance) :=
  self <- match __growth_rate self with
          | None => fit_growth_curve self None
          | Some _ => Ok self
          end ;;
  Ok (__growth_rate self, self).

Definition lag_time (self : instance) : result (option timedelta * instance) :=
  self <- match __lag_time self with
          | None => fit_growth_curve self None
          | Some _ => Ok self
          end ;;
  Ok (__lag_time self, self).

(** [x > 0] for what a property returned: None does not compare with an
    int. *)
Definition gt_zero (x : option float) : result bool :=
  match x with
  | None => Raise TypeError
  | Some v => Ok (fgtb v (Finite 0))
  end.

Definition doubling_time (self : instance) : result (timedelta * instance) :=
  let doubling_seconds := Finite 0 in
  '(rate, self) <- growth_rate self ;;
  positive <- gt_zero rate ;;
  '(doubling_seconds, self) <-
    (if positive : bool then
       '(rate, self) <- growth_rate self ;;
       match rate with
       | None => Raise TypeError
       | Some rate =>
           seconds <- fdiv (Finite (log 2)) rate ;;
           Ok (seconds, self)
       end
     else Ok (doubling_seconds, self)) ;;
  duration <- timedelta_seconds doubling_seconds ;;
  Ok (duration, self).

End Fitting.

End GrowthCurve.

(** ** colonyscanalyser/align.py

    The images, descriptors, keypoints and transforms of skimage are
    opaque; its functions, and the method [_extract_keypoints] that only
    calls into it, are taken as they come: any function, possibly
    raising. *)

Module Align.

Inductive warning : Type :=
| RuntimeWarning.

Definition is_RuntimeError_or_IndexError (e : exn) : bool :=
  match e with
  | RuntimeError | IndexError => true
  | _ => false
  end.

Section DescriptorAlignTransform.

Variables image descriptors keypoints matches robust transform : Type.

(** [self._extract_keypoints(image)] *)
Variable _extract_keypoints : image -> result (descriptors * keypoints).
(** [match_descriptors(descriptors_ref, descriptors, cross_check = True)] *)
Variable match_descriptors : descriptors -> descriptors -> result matches.
(** [keypoints[matches[:, column]]] *)
Variable select : keypoints -> matches -> Z -> result keypoints.
(** [ransac((matches_ref, matches), self.transform_model, min_samples = 8,
    residual_threshold = 0.8, max_trials = 1000)], the estimated model *)
Variable ransac : keypoints -> keypoints -> result robust.
(** [self.transform_model(rotation = transform_robust.rotation)] *)
Variable rotation_of : robust -> result transform.
(** [self.transform_model(translation = -flip(transform_robust.translation))] *)
Variable translation_of : robust -> result transform.
(** [a + b] on transforms *)
Variable add : transform -> transform -> result transform.
(** [transform.inverse] *)
Variable inverse : transform -> transform.
(** [warp(image, inverse_map, order, preserve_range)] *)
Variable warp : image -> transform -> Z -> bool -> result image.

(** The instance: the reference image, held as its descriptors and
    keypoints. *)
Record instance : Type := {
  _image_ref_descriptors : descriptors;
  _image_ref_keypoints : keypoints
}.

Definition image_ref (self : instance) : descriptors * keypoints :=
  (_image_ref_descriptors self, _image_ref_keypoints self).

(** [DescriptorAlignTransform.align_transform(self, image)] *)
Definition align_transform (self : instance) (img : image) : result transform :=
  let '(descriptors_ref, keypoints_ref) := image_ref self in
  '(descriptors, keypoints) <- _extract_keypoints img ;;
  transform_robust <-
    try_except is_RuntimeError_or_IndexError
      (matches <- match_descriptors descriptors_ref descriptors ;;
       matches_ref <- select keypoints_ref matches 0 ;;
       matches <- select keypoints matches 1 ;;
       ransac matches_ref matches)
      (Raise RuntimeError) ;;
  rotation <- rotation_of transform_robust ;;
  translation <- translation_of transform_robust ;;
  add rotation translation.

(** [DescriptorAlignTransform.align(self, image, precise)], with the
    warnings it emits. *)
Definition align (self : instance) (img : image) (precise : bool)
  : result (image * list warning) :=
  transform <- align_transform self img ;;
  '(transform, warnings) <-
    (if precise then
       try_except is_RuntimeError
         (image_aligned <- warp img (inverse transform) 1 false ;;
          second <- align_transform self image_aligned ;;
          transform <- add transform second ;;
          Ok (transform, []))
         (Ok (transform, [RuntimeWarning]))
     else Ok (transform, [])) ;;
  aligned <- warp img (inverse transform) 3 true ;;
  Ok (aligned, warnings).

End DescriptorAlignTransform.

End Align.

(** ** colonyscanalyser/colony.py (clustering)

    The module itself is not among the sources; only its tests are. *)

Module Colony.

Import Py.
Local Open Scope R_scope.

(** The tests expect ValueError where the specification says
    InvalidArgument. *)
Definition InvalidArgument : exn := ValueError.

Record Timepoint : Type := {
  timestamp : timedelta;
  area : R;
  center : R * R;
  diameter : R;
  perimeter : R;
  color_average : R * R * R
}.

Record ColonyTrack : Type := {
  id : Z;
  timepoints : list Timepoint
}.

Definition euclidean (p q : R * R) : R :=
  sqrt (Rsqr (fst p - fst q) + Rsqr (snd p - snd q)).

(** Modelled from the spec: the direct link of [cluster], two detections
    whose Euclidean distance is at most [distance]. *)
Definition linked (distance : R) (a b : Timepoint) : bool :=
  Rleb (euclidean (center a) (center b)) distance.

(** Modelled from the spec: the groups of [cluster], the connected
    components of the link relation.  A detection joins, and thereby
    merges, every group built so far that holds a detection linked to it. *)
Fixpoint components (distance : R) (detections : list Timepoint)
  : list (list Timepoint) :=
  match detections with
  | [] => []
  | d :: rest =>
      let groups := components distance rest in
      let near := filter (existsb (linked distance d)) groups in
      let far := filter (fun g => negb (existsb (linked distance d) g)) groups in
      (d :: concat near) :: far
  end.

(** Sequential ids, counted from [first]. *)
Fixpoint number_tracks (first : Z) (groups : list (list Timepoint))
  : list ColonyTrack :=
  match groups with
  | [] => []
  | g :: rest =>
      {| id := first; timepoints := g |} :: number_tracks (first + 1) rest
  end.

(** Modelled from the spec: [cluster(detections, distance)], the function
    [colonies_from_timepoints] of the absent colony module.  An empty input
    fails with InvalidArgument; otherwise each group becomes a Colony Track
    with a sequential id. *)
Definition cluster (detections : list Timepoint) (distance : R)
  : result (list ColonyTrack) :=
  match detections with
  | [] => Raise InvalidArgument
  | _ => Ok (number_tracks 1 (components distance detections))
  end.

End Colony.

(** ** Notions used to state the properties *)

Module Notions.

Import Py.
Local Open Scope R_scope.

(** Position of the first element of [l] above [threshold]. *)
Fixpoint first_exceeding (threshold : R) (l : list R) : option nat :=
  match l with
  | [] => None
  | d :: rest =>
      if Rgtb d threshold then Some O
      else option_map S (first_exceeding threshold rest)
  end.

(** [k] is the first position of [l] holding a value above [threshold]. *)
Definition first_above (threshold : R) (l : list R) (k : nat) : Prop :=
  (exists d, nth_error l k = Some d /\ threshold < d) /\
  (forall m d, (m < k)%nat -> nth_error l m = Some d -> d <= threshold).

(** The position at which the lag-time loop reads [timestamps] (and starts
    its slice of [diffs]) when it stops at enumeration index [i]. *)
Definition lag_index (i : Z) : Z :=
  ((if (i =? 0)%Z then i + 1 else i) - 1)%Z.

(** The Gompertz model as the specification writes it:
    y(t) = y0 + A * exp(-exp(((mu_max * e) / A) * (lambda - t) + 1)). *)
Definition gompertz_reference (elapsed_time initial_size lag_time growth_rate
                               carrying_capacity : R) : R :=
  initial_size
  + carrying_capacity
    * exp (- exp (((growth_rate * e) / carrying_capacity)
                  * (lag_time - elapsed_time) + 1)).

(** What [fit_growth_curve] hands to the optimizer: timestamps,
    measurements and initial parameters. *)
Definition fit_arguments (self : GrowthCurve.instance)
    (initial_params : option (list R)) : result (list R * list R * list R) :=
  let timestamps :=
    map total_seconds
        (sorted timedelta_ltb (map fst (GrowthCurve.growth_curve_data self))) in
  let measurements :=
    map snd (sorted item_ltb (GrowthCurve.growth_curve_data self)) in
  '(lag_time, growth_rate, carrying_capacity) <-
     GrowthCurve.estimate_parameters timestamps measurements ;;
  initial_params <-
    match initial_params with
    | None =>
        initial_size <- min measurements ;;
        Ok [initial_size; lag_time; growth_rate; carrying_capacity]
    | Some params => Ok params
    end ;;
  Ok (timestamps, measurements, initial_params).

(** The three fitted parameters are held by the instance. *)
Definition fitted (self : GrowthCurve.instance) : Prop :=
  (exists t, GrowthCurve.__lag_time self = Some t) /\
  (exists g, GrowthCurve.__growth_rate self = Some g) /\
  (exists c, GrowthCurve.__carrying_capacity self = Some c).

(** No attribute has been assigned yet. *)
Definition unfitted (self : GrowthCurve.instance) : Prop :=
  GrowthCurve.__lag_time self = None /\
  GrowthCurve.__growth_rate self = None /\
  GrowthCurve.__carrying_capacity self = None.

(** The doubling time derived from a growth rate: the duration of
    ln(2)/growth_rate seconds for a positive rate, of zero seconds
    otherwise; an exception where the duration cannot be built. *)
Definition doubling_of (growth_rate : float) : result timedelta :=
  seconds <- (if fgtb growth_rate (Finite 0)
              then fdiv (Finite (log 2)) growth_rate
              else Ok (Finite 0)) ;;
  timedelta_seconds seconds.

(** Every property of [self], read now, returns what the instance holds
    and leaves the instance, with its count of fits, as it is; reading the
    doubling time does what deriving it from the held growth rate does, and
    leaves the instance as it is when it returns. *)
Definition reads_cached (covariance : Type)
    (curve_fit : GrowthCurve.curve -> list R -> list R -> list R ->
                 result (list float * covariance))
    (self : GrowthCurve.instance) : Prop :=
  exists t g c,
    GrowthCurve.lag_time covariance curve_fit self = Ok (Some t, self) /\
    GrowthCurve.growth_rate covariance curve_fit self = Ok (Some g, self) /\
    GrowthCurve.carrying_capacity covariance curve_fit self = Ok (Some c, self) /\
    GrowthCurve.doubling_time covariance curve_fit self
      = (d <- doubling_of g ;; Ok (d, self)).

(** [after] is what a property read made of [before]: fitted by at most one
    fit, nothing stored for the doubling time, and all reads cached. *)
Definition settled (covariance : Type)
    (curve_fit : GrowthCurve.curve -> list R -> list R -> list R ->
                 result (list float * covariance))
    (before after : GrowthCurve.instance) : Prop :=
  fitted after /\
  (GrowthCurve.fit_calls after <= S (GrowthCurve.fit_calls before))%nat /\
  GrowthCurve.__doubling_time after = GrowthCurve.__doubling_time before /\
  reads_cached covariance curve_fit after.

(** A duration of [n] whole seconds. *)
Definition whole_seconds (n : Z) : timedelta :=
  {| total_microseconds := n * 1000000 |}.

(** Seconds to the nearest microsecond, and whether that many microseconds
    are within the 999999999 days a timedelta can hold. *)
Definition microseconds_of (seconds : R) : Z :=
  round_half_even (seconds * 1000000).

Definition representable (us : Z) : Prop :=
  (Z.abs (us / 86400000000) <= 999999999)%Z.

(** A number of days, in seconds. *)
Definition days (n : R) : R := n * 86400.

(** [x] is within the range of a double, with room for the rounding of the
    arithmetic that led to it: at most half the largest double in
    magnitude. *)
Definition in_range (x : R) : Prop := Rabs x <= float_max / 2.

(** The number whose negation [gompertz] hands to the final exponential. *)
Definition exponent (elapsed_time lag_time growth_rate carrying_capacity : R)
  : R :=
  (growth_rate * e / carrying_capacity) * (lag_time - elapsed_time) + 1.

(** No product, quotient, difference or sum on the way to that number
    comes near the end of the range of a double. *)
Definition exponent_in_range
    (elapsed_time lag_time growth_rate carrying_capacity : R) : Prop :=
  in_range (growth_rate * e) /\
  in_range (growth_rate * e / carrying_capacity) /\
  in_range (lag_time - elapsed_time) /\
  in_range ((growth_rate * e / carrying_capacity) * (lag_time - elapsed_time)) /\
  in_range (exponent elapsed_time lag_time growth_rate carrying_capacity).

End Notions.

(** ** Sample inputs *)

Module Samples.

Local Open Scope R_scope.

Definition sample_timestamps : list R := [10; 20; 30; 40; 50; 60].

(** Flat, then one rise at the very end: differences 0, 0, 0, 0, 5. *)
Definition late_rise : list R := [0; 0; 0; 0; 0; 5].

(** One rise at the very start: differences 5, 0, 0, 0, 0. *)
Definition early_rise : list R := [0; 5; 5; 5; 5; 5].

(** An optimizer that never converges. *)
Definition never_converges
    (f : GrowthCurve.curve) (xdata ydata p0 : list R)
  : result (list Py.float * unit) :=
  Raise RuntimeError.

(** An optimizer that converges to a growth rate of 1e-15. *)
Definition converges_slowly
    (f : GrowthCurve.curve) (xdata ydata p0 : list R)
  : result (list Py.float * unit) :=
  Ok ([Py.Finite 1; Py.Finite 30; Py.Finite (/ 10 ^ 15); Py.Finite 100], tt).

(** One observation of size 1 at time 0. *)
Definition single_observation : list (timedelta * R) :=
  [(Notions.whole_seconds 0, 1)].

(** The instance a fit of [single_observation] leaves behind when the
    optimizer does not converge. *)
Definition single_fitted : GrowthCurve.instance :=
  {| GrowthCurve.__doubling_time := None;
     GrowthCurve.__growth_rate := Some (Py.Finite 0);
     GrowthCurve.__carrying_capacity := Some (Py.Finite 0);
     GrowthCurve.__lag_time := Some (Notions.whole_seconds 0);
     GrowthCurve.growth_curve_data := single_observation;
     GrowthCurve.fit_calls := 1 |}.

(** A fitted instance with growth rate 2, and the one a fit of
    [single_observation] leaves behind when the optimizer converges to a
    growth rate of 1e-15. *)
Definition growing : GrowthCurve.instance :=
  {| GrowthCurve.__doubling_time := None;
     GrowthCurve.__growth_rate := Some (Py.Finite 2);
     GrowthCurve.__carrying_capacity := Some (Py.Finite 100);
     GrowthCurve.__lag_time := Some (Notions.whole_seconds 30);
     GrowthCurve.growth_curve_data := single_observation;
     GrowthCurve.fit_calls := 1 |}.

Definition barely_growing : GrowthCurve.instance :=
  {| GrowthCurve.__doubling_time := None;
     GrowthCurve.__growth_rate := Some (Py.Finite (/ 10 ^ 15));
     GrowthCurve.__carrying_capacity := Some (Py.Finite 100);
     GrowthCurve.__lag_time := Some (Notions.whole_seconds 30);
     GrowthCurve.growth_curve_data := single_observation;
     GrowthCurve.fit_calls := 1 |}.

End Samples.

(** ** Notions used to state the properties of the fit *)

Module FitNotions.

Local Open Scope R_scope.

(** Earlier, as durations. *)
Definition earlier (a b : timedelta) : Prop :=
  (total_microseconds a < total_microseconds b)%Z.

(** An observation as the pair the optimizer sees: seconds and
    measurement. *)
Definition observation (item : timedelta * R) : R * R :=
  (total_seconds (fst item), snd item).

(** Two instances hold the same three fitted parameters. *)
Definition same_parameters (a b : GrowthCurve.instance) : Prop :=
  GrowthCurve.__lag_time a = GrowthCurve.__lag_time b /\
  GrowthCurve.__growth_rate a = GrowthCurve.__growth_rate b /\
  GrowthCurve.__carrying_capacity a = GrowthCurve.__carrying_capacity b.

(** Three observations, filled in out of order, and the same in order. *)
Definition shuffled : list (timedelta * R) :=
  [(Notions.whole_seconds 20, 2); (Notions.whole_seconds 0, 1);
   (Notions.whole_seconds 10, 4)].

Definition ordered : list (timedelta * R) :=
  [(Notions.whole_seconds 0, 1); (Notions.whole_seconds 10, 4);
   (Notions.whole_seconds 20, 2)].

End FitNotions.

(** ** More sample optimizers *)

Module Optimizers.

Local Open Scope R_scope.

(** An optimizer that converges to fixed parameters. *)
Definition converges
    (f : GrowthCurve.curve) (xdata ydata p0 : list R)
  : result (list Py.float * unit) :=
  Ok ([Py.Finite 1; Py.Finite 20; Py.Finite 2; Py.Finite 50], tt).

(** An optimizer that converges to a lag time that is not a number. *)
Definition converges_to_nan
    (f : GrowthCurve.curve) (xdata ydata p0 : list R)
  : result (list Py.float * unit) :=
  Ok ([Py.Finite 1; Py.NaN; Py.Finite 2; Py.Finite 50], tt).

(** An optimizer that rejects its input. *)
Definition rejects
    (f : GrowthCurve.curve) (xdata ydata p0 : list R)
  : result (list Py.float * unit) :=
  Raise ValueError.

End Optimizers.

(** ** A toy alignment back end *)

Module ToyAlign.

(** Images are numbers; an image's descriptors and keypoints are the image
    itself; image 0 has no features to match; a transform is a number and
    the first warp (order 1) yields the featureless image. *)
Definition extract (img : nat) : result (nat * nat) := Ok (img, img).

Definition matching (reference found : nat) : result unit :=
  match found with
  | O => Raise IndexError
  | S _ => Ok tt
  end.

Definition select (points : nat) (m : unit) (column : Z) : result nat :=
  Ok points.

Definition ransac (reference found : nat) : result nat := Ok found.

Definition part (model : nat) : result nat := Ok model.

Definition add (a b : nat) : result nat := Ok (a + b)%nat.

Definition inverse (t : nat) : nat := t.

Definition warp (img t : nat) (order : Z) (preserve_range : bool) : result nat :=
  if (order =? 1)%Z then Ok O else Ok (img + t)%nat.

(** A back end whose extractor rejects the featureless image. *)
Definition extract_strict (img : nat) : result (nat * nat) :=
  match img with
  | O => Raise ValueError
  | S _ => Ok (img, img)
  end.

Definition reference : Align.instance nat nat :=
  {| Align._image_ref_descriptors := 7%nat;
     Align._image_ref_keypoints := 7%nat |}.

End ToyAlign.

(** * Properties *)

(** ** Theorems: scanlag/utilities.py *)

Module UtilitiesFacts.
Import Utilities.
Local Open Scope Z_scope.

Example index_3x4_7 : index_number_to_coordinate 7 (3, 4) = Ok (2, 3).
Proof. reflexivity. Qed.

Example index_3x4_13 : index_number_to_coordinate 13 (3, 4) = Raise IndexError.
Proof. reflexivity. Qed.

Lemma row_major_bounds (index rows cols : Z) :
  1 <= cols -> 1 <= index <= rows * cols ->
  1 <= (index - 1) / cols + 1 <= rows /\
  1 <= (index - 1) mod cols + 1 <= cols /\
  ((index - 1) / cols + 1 - 1) * cols + ((index - 1) mod cols + 1) = index.
Proof.
  intros Hc Hi.
  pose proof (Z.mod_pos_bound (index - 1) cols ltac:(lia)) as Hm.
  pose proof (Z.div_mod (index - 1) cols ltac:(lia)) as Hdm.
  assert (0 <= (index - 1) / cols) by (apply Z.div_pos; lia).
  assert ((index - 1) / cols < rows).
  { apply Z.div_lt_upper_bound; lia. }
  repeat split; try lia.
Qed.

(** C9. On a lattice with at least one row and one column, every index from
    1 to rows*cols is mapped, without error, to a 1-based (row, col) inside
    the lattice with (row - 1)*cols + col = index; an index, row count or
    column count below 1 raises ValueError; an index past rows*cols (whose
    coordinate would leave the lattice) raises IndexError. *)
Theorem index_number_to_coordinate_spec (index rows cols : Z) :
  (1 <= rows -> 1 <= cols -> 1 <= index <= rows * cols ->
     exists row col,
       index_number_to_coordinate index (rows, cols) = Ok (row, col) /\
       1 <= row <= rows /\ 1 <= col <= cols /\
       (row - 1) * cols + col = index) /\
  (index < 1 \/ rows < 1 \/ cols < 1 ->
     index_number_to_coordinate index (rows, cols) = Raise ValueError) /\
  (1 <= rows -> 1 <= cols -> rows * cols < index ->
     index_number_to_coordinate index (rows, cols) = Raise IndexError).
Proof.
  unfold index_number_to_coordinate; cbn [snd].
  split; [|split].
  - intros Hr Hc Hi.
    destruct (row_major_bounds index rows cols Hc Hi) as (Hrow & Hcol & Heq).
    exists ((index - 1) / cols + 1), ((index - 1) mod cols + 1).
    replace (index <? 1) with false by (symmetry; apply Z.ltb_ge; lia).
    replace (rows <? 1) with false by (symmetry; apply Z.ltb_ge; lia).
    replace (cols <? 1) with false by (symmetry; apply Z.ltb_ge; lia).
    cbn [orb].
    replace ((index - 1) / cols + 1 >? rows) with false
      by (symmetry; rewrite Z.gtb_ltb; apply Z.ltb_ge; lia).
    replace ((index - 1) mod cols + 1 >? cols) with false
      by (symmetry; rewrite Z.gtb_ltb; apply Z.ltb_ge; lia).
    cbn [orb]. repeat split; lia.
  - intros H.
    destruct (index <? 1) eqn:E1; [reflexivity|].
    destruct (rows <? 1) eqn:E2; [reflexivity|].
    destruct (cols <? 1) eqn:E3; [reflexivity|].
    apply Z.ltb_ge in E1, E2, E3. lia.
  - intros Hr Hc Hi.
    replace (index <? 1) with false by (symmetry; apply Z.ltb_ge; nia).
    replace (rows <? 1) with false by (symmetry; apply Z.ltb_ge; lia).
    replace (cols <? 1) with false by (symmetry; apply Z.ltb_ge; lia).
    cbn [orb].
    assert (rows <= (index - 1) / cols).
    { apply Z.div_le_lower_bound; lia. }
    replace ((index - 1) / cols + 1 >? rows) with true
      by (symmetry; rewrite Z.gtb_ltb; apply Z.ltb_lt; lia).
    reflexivity.
Qed.

Lemma index_number_to_coordinate_spec_witness :
  index_number_to_coordinate 7 (3, 4) = Ok (2, 3) /\
  index_number_to_coordinate 0 (3, 4) = Raise ValueError /\
  index_number_to_coordinate 13 (3, 4) = Raise IndexError.
Proof.
  split; [|split].
  - destruct (proj1 (index_number_to_coordinate_spec 7 3 4)
                ltac:(lia) ltac:(lia) ltac:(lia))
      as (row & col & Heq & Hrow & Hcol & Hidx).
    rewrite Heq. assert (row = 2) by lia. assert (col = 3) by lia.
    subst. reflexivity.
  - apply (proj1 (proj2 (index_number_to_coordinate_spec 0 3 4))). left; lia.
  - apply (proj2 (proj2 (index_number_to_coordinate_spec 13 3 4))); lia.
Defined.

End UtilitiesFacts.

(** ** Lemmas: Python built-ins *)

Module PyFacts.
Import Py.
Local Open Scope R_scope.

Lemma Rltb_true (x y : R) : Rltb x y = true <-> x < y.
Proof. unfold Rltb. destruct (Rlt_dec x y); split; intros; try easy. Qed.

Lemma Rltb_false (x y : R) : Rltb x y = false <-> y <= x.
Proof.
  unfold Rltb. destruct (Rlt_dec x y); split; intros; try easy; lra.
Qed.

Lemma Rleb_true (x y : R) : Rleb x y = true <-> x <= y.
Proof. unfold Rleb. destruct (Rle_dec x y); split; intros; try easy. Qed.

Lemma Rleb_false (x y : R) : Rleb x y = false <-> y < x.
Proof.
  unfold Rleb. destruct (Rle_dec x y); split; intros; try easy; lra.
Qed.

Lemma Rgtb_true (x y : R) : Rgtb x y = true <-> y < x.
Proof. apply Rltb_true. Qed.

Lemma Rgtb_false (x y : R) : Rgtb x y = false <-> x <= y.
Proof. apply Rltb_false. Qed.

Lemma getitem_nat {A : Type} (l : list A) (n : nat) (a : A) :
  nth_error l n = Some a -> getitem l (Z.of_nat n) = Ok a.
Proof.
  intros H. unfold getitem, len.
  assert (n < length l)%nat by (apply nth_error_Some; congruence).
  replace (Z.of_nat n <? 0)%Z with false by (symmetry; apply Z.ltb_ge; lia).
  replace (Z.of_nat n <? 0)%Z with false by (symmetry; apply Z.ltb_ge; lia).
  replace (Z.of_nat (length l) <=? Z.of_nat n)%Z with false
    by (symmetry; apply Z.leb_gt; lia).
  cbn [orb]. rewrite Nat2Z.id, H. reflexivity.
Qed.

Lemma getitem_last {A : Type} (l : list A) (d : A) :
  l <> [] -> getitem l (-1) = Ok (last l d).
Proof.
  intros Hl. unfold getitem, len.
  assert (0 < length l)%nat by (destruct l; [congruence | cbn; lia]).
  replace (-1 <? 0)%Z with true by reflexivity.
  replace (-1 + Z.of_nat (length l) <? 0)%Z with false
    by (symmetry; apply Z.ltb_ge; lia).
  replace (Z.of_nat (length l) <=? -1 + Z.of_nat (length l))%Z with false
    by (symmetry; apply Z.leb_gt; lia).
  cbn [orb].
  replace (Z.to_nat (-1 + Z.of_nat (length l))) with (length l - 1)%nat by lia.
  destruct (exists_last Hl) as (l' & a & ->).
  rewrite last_last, length_app, nth_error_app2 by (cbn; lia).
  cbn [length]. replace (length l' + 1 - 1 - length l')%nat with O by lia.
  reflexivity.
Qed.

Lemma getitem_empty {A : Type} (i : Z) : getitem (@nil A) i = Raise IndexError.
Proof.
  unfold getitem, len. cbn [length Z.of_nat].
  destruct (i <? 0)%Z eqn:E.
  - rewrite Z.add_0_r, E. reflexivity.
  - rewrite E.
    replace (0 <=? i)%Z with true
      by (symmetry; apply Z.leb_le; apply Z.ltb_ge in E; lia).
    reflexivity.
Qed.

(** [l[n:-1]] drops the first [n] elements and the last one. *)
Lemma slice_to_last {A : Type} (l : list A) (n : nat) :
  (n <= length l)%nat ->
  slice l (Z.of_nat n) (-1) = firstn (length l - 1 - n) (skipn n l).
Proof.
  intros Hn. unfold slice, slice_bound, len.
  replace (Z.of_nat n <? 0)%Z with false by (symmetry; apply Z.ltb_ge; lia).
  replace (-1 <? 0)%Z with true by reflexivity.
  rewrite Z.min_l by lia. rewrite Nat2Z.id.
  f_equal. lia.
Qed.

Lemma fold_left_Rmax_ge (xs : list R) (x : R) :
  x <= fold_left Rmax xs x /\
  (forall y, In y xs -> y <= fold_left Rmax xs x).
Proof.
  revert x. induction xs as [|a xs IH]; intros x; cbn.
  - split; [lra | tauto].
  - destruct (IH (Rmax x a)) as [H1 H2].
    pose proof (Rmax_l x a). pose proof (Rmax_r x a).
    split; [lra|]. intros y [->|Hy]; [lra | auto].
Qed.

Lemma fold_left_Rmax_in (xs : list R) (x : R) :
  In (fold_left Rmax xs x) (x :: xs).
Proof.
  revert x. induction xs as [|a xs IH]; intros x; cbn.
  - now left.
  - destruct (IH (Rmax x a)) as [H|H].
    + rewrite <- H. unfold Rmax. destruct (Rle_dec x a); tauto.
    + tauto.
Qed.

(** [max] returns an element of a non-empty list that bounds all others. *)
Lemma max_spec (l : list R) :
  l <> [] ->
  exists m, max l = Ok m /\ In m l /\ forall y, In y l -> y <= m.
Proof.
  destruct l as [|x xs]; [congruence|]. intros _.
  exists (fold_left Rmax xs x). split; [reflexivity|].
  split; [apply fold_left_Rmax_in|].
  destruct (fold_left_Rmax_ge xs x) as [H1 H2].
  intros y [<-|Hy]; auto.
Qed.

End PyFacts.

(** ** Lemmas: the estimation loops *)

Module EstimateFacts.
Import Py PyFacts Notions GrowthCurve.
Local Open Scope R_scope.

Lemma diff_length (a : list R) : length (Np.diff a) = pred (length a).
Proof.
  induction a as [|x [|y rest] IH]; try reflexivity.
  change (Np.diff (x :: y :: rest)) with ((y - x) :: Np.diff (y :: rest)).
  cbn [length pred] in *. now rewrite IH.
Qed.

Lemma first_exceeding_lt (threshold : R) (l : list R) (k : nat) :
  first_exceeding threshold l = Some k -> (k < length l)%nat.
Proof.
  revert k. induction l as [|d rest IH]; intros k; cbn; [discriminate|].
  destruct (Rgtb d threshold).
  - intros [= <-]. lia.
  - destruct (first_exceeding threshold rest) as [j|]; cbn; [|discriminate].
    intros [= <-]. specialize (IH j eq_refl). lia.
Qed.

Lemma first_exceeding_Some (threshold : R) (l : list R) (k : nat) :
  first_exceeding threshold l = Some k <-> first_above threshold l k.
Proof.
  revert k. induction l as [|d rest IH]; intros k.
  - cbn. split; [discriminate|].
    intros [(x & Hx & _) _]. destruct k; discriminate.
  - cbn [first_exceeding]. destruct (Rgtb d threshold) eqn:E.
    + apply Rgtb_true in E. split.
      * intros [= <-]. split; [exists d; split; [reflexivity | assumption]|].
        intros m x Hm. lia.
      * intros [_ Hbefore]. destruct k as [|k]; [reflexivity|].
        specialize (Hbefore O d ltac:(lia) eq_refl). lra.
    + apply Rgtb_false in E. split.
      * destruct (first_exceeding threshold rest) as [j|] eqn:Ej; cbn;
          [|discriminate].
        intros [= <-]. destruct (proj1 (IH j) eq_refl) as [Hat Hbefore].
        split; [exact Hat|].
        intros [|m] x Hm Hx; cbn in Hx.
        -- injection Hx as <-. exact E.
        -- apply (Hbefore m x); [lia | exact Hx].
      * intros [(x & Hx & Hgt) Hbefore]. destruct k as [|k].
        -- cbn in Hx. injection Hx as <-. lra.
        -- rewrite (proj2 (IH k)); [reflexivity|].
           split; [exists x; split; assumption|].
           intros m y Hm Hy. apply (Hbefore (S m) y); [lia | exact Hy].
Qed.

Lemma first_exceeding_None (threshold : R) (l : list R) :
  first_exceeding threshold l = None <-> Forall (fun d => d <= threshold) l.
Proof.
  induction l as [|d rest IH]; cbn.
  - split; [constructor | reflexivity].
  - destruct (Rgtb d threshold) eqn:E.
    + apply Rgtb_true in E. split; [discriminate|].
      intros H. inversion H; subst. lra.
    + apply Rgtb_false in E.
      destruct (first_exceeding threshold rest) as [j|]; cbn.
      * split; [discriminate|]. intros H. inversion H; subst.
        destruct IH as [_ IH]. specialize (IH H3). discriminate.
      * split; [|reflexivity]. intros _. constructor; [exact E|].
        now apply IH.
Qed.

Lemma lag_index_nat (k : nat) : lag_index (Z.of_nat k) = Z.of_nat (pred k).
Proof.
  unfold lag_index. destruct k as [|k].
  - reflexivity.
  - replace (Z.of_nat (S k) =? 0)%Z with false
      by (symmetry; apply Z.eqb_neq; lia).
    cbn [pred]. lia.
Qed.

Lemma lag_index_nonneg (i : Z) : (0 <= i)%Z -> (0 <= lag_index i)%Z.
Proof.
  intros Hi. unfold lag_index. destruct (i =? 0)%Z eqn:E.
  - apply Z.eqb_eq in E. lia.
  - apply Z.eqb_neq in E. lia.
Qed.

(** The loop, read off [first_exceeding]: the defaults when nothing is above
    the threshold, else one lookup and one slice at [lag_index]. *)
Lemma inflection_scan_eq (timestamps diffs : list R) (inflection : R)
    (rest : list R) (i : Z) :
  inflection_scan timestamps diffs inflection i rest =
  match first_exceeding inflection rest with
  | None => Ok (0, 0)
  | Some k =>
      lag_time <- getitem timestamps (lag_index (i + Z.of_nat k)) ;;
      growth_rate <- max (slice diffs (lag_index (i + Z.of_nat k)) (-1)) ;;
      Ok (lag_time, growth_rate)
  end.
Proof.
  revert i. induction rest as [|d rest IH]; intros i; [reflexivity|].
  cbn [inflection_scan first_exceeding].
  destruct (Rgtb d inflection).
  - cbn [Z.of_nat]. rewrite Z.add_0_r. reflexivity.
  - rewrite IH. destruct (first_exceeding inflection rest) as [k|];
      cbn [option_map]; [|reflexivity].
    replace (i + 1 + Z.of_nat k)%Z with (i + Z.of_nat (S k))%Z by lia.
    reflexivity.
Qed.

Lemma sum_singleton (d : R) : Np.sum [d] = d.
Proof. unfold Np.sum. cbn. lra. Qed.

Lemma mean_singleton (d : R) : Np.mean [d] = d.
Proof. unfold Np.mean. rewrite sum_singleton. cbn. field. Qed.

Lemma std_singleton (d : R) : Np.std [d] = 0.
Proof.
  unfold Np.std. cbn [map]. rewrite !mean_singleton.
  replace (d - d) with 0 by lra. rewrite Rsqr_0. apply sqrt_0.
Qed.

(** A lone difference never exceeds its own mean plus deviation. *)
Lemma first_exceeding_singleton (d : R) :
  first_exceeding (Np.mean [d] + Np.std [d]) [d] = None.
Proof.
  rewrite mean_singleton, std_singleton. cbn.
  replace (Rgtb d (d + 0)) with false; [reflexivity|].
  symmetry. apply Rgtb_false. lra.
Qed.

Lemma In_firstn_skipn (l : list R) (a b : nat) (x : R) :
  In x (firstn a (skipn b l)) <->
  exists m, (b <= m < b + a)%nat /\ nth_error l m = Some x.
Proof.
  split.
  - intros H. apply In_nth_error in H as (i & Hi).
    rewrite nth_error_firstn in Hi. destruct (Nat.ltb_spec i a); [|discriminate].
    rewrite nth_error_skipn in Hi. exists (b + i)%nat. split; [lia | exact Hi].
  - intros (m & Hm & Hx). apply (nth_error_In _ (m - b)).
    rewrite nth_error_firstn.
    destruct (Nat.ltb_spec (m - b) a); [|lia].
    rewrite nth_error_skipn. replace (b + (m - b))%nat with m by lia. exact Hx.
Qed.

End EstimateFacts.

(** ** Theorems: [estimate_parameters] *)

Module EstimateTheorems.
Import Py PyFacts Notions GrowthCurve EstimateFacts Samples.
Local Open Scope R_scope.

Ltac Rdecide :=
  repeat match goal with
  | |- context [Rgtb ?a ?b] =>
      first [ replace (Rgtb a b) with true by (symmetry; apply Rgtb_true; lra)
            | replace (Rgtb a b) with false by (symmetry; apply Rgtb_false; lra) ]
  | |- context [Rleb ?a ?b] =>
      first [ replace (Rleb a b) with true by (symmetry; apply Rleb_true; lra)
            | replace (Rleb a b) with false by (symmetry; apply Rleb_false; lra) ]
  | |- context [Rltb ?a ?b] =>
      first [ replace (Rltb a b) with true by (symmetry; apply Rltb_true; lra)
            | replace (Rltb a b) with false by (symmetry; apply Rltb_false; lra) ]
  end.

Lemma len_eqb (ts ms : list R) :
  length ts = length ms -> negb (len ts =? len ms)%Z = false.
Proof. intros H. unfold len. rewrite H, Z.eqb_refl. reflexivity. Qed.

Lemma len_neqb (ts ms : list R) :
  length ts <> length ms -> negb (len ts =? len ms)%Z = true.
Proof.
  intros H. unfold len.
  replace (Z.of_nat (length ts) =? Z.of_nat (length ms))%Z with false;
    [reflexivity|].
  symmetry. apply Z.eqb_neq. lia.
Qed.

(** What [estimate_parameters] returns on non-empty inputs of equal length. *)
Lemma estimate_parameters_defined (ts ms : list R) :
  length ts = length ms -> ms <> [] ->
  exists cc,
    match first_exceeding (Np.mean (Np.diff ms) + Np.std (Np.diff ms))
                          (Np.diff ms) with
    | None => estimate_parameters ts ms = Ok (0, 0, cc)
    | Some k =>
        exists lag gr,
          estimate_parameters ts ms = Ok (lag, gr, cc) /\
          nth_error ts (pred k) = Some lag /\
          max (firstn (length (Np.diff ms) - 1 - pred k)
                      (skipn (pred k) (Np.diff ms))) = Ok gr
    end.
Proof.
  intros Hlen Hne. unfold estimate_parameters.
  rewrite (len_eqb _ _ Hlen), (getitem_last ms 0 Hne). cbn [bind].
  eexists. rewrite inflection_scan_eq.
  destruct (first_exceeding _ (Np.diff ms)) as [k|] eqn:Hk; [|reflexivity].
  pose proof (first_exceeding_lt _ _ _ Hk) as Hlt.
  pose proof (diff_length ms) as Hd.
  rewrite Z.add_0_l, lag_index_nat.
  destruct (nth_error ts (pred k)) as [lag|] eqn:Hlag.
  2:{ apply nth_error_None in Hlag. lia. }
  rewrite (getitem_nat _ _ _ Hlag). cbn [bind].
  rewrite slice_to_last by lia.
  destruct (max_spec (firstn (length (Np.diff ms) - 1 - pred k)
                             (skipn (pred k) (Np.diff ms)))) as (gr & Hgr & _).
  { intros Hnil. apply (f_equal (@length R)) in Hnil.
    rewrite length_firstn, length_skipn in Hnil. cbn [length] in Hnil.
    destruct k as [|k]; [|cbn [pred] in Hnil; lia].
    destruct (Np.diff ms) as [|d [|d' rest]] eqn:Hdiff; cbn in Hnil, Hlt; try lia.
    rewrite first_exceeding_singleton in Hk. discriminate. }
  rewrite Hgr. cbn [bind]. exists lag, gr. auto.
Qed.

Lemma late_rise_mean : Np.mean (Np.diff late_rise) = 1.
Proof. unfold Np.mean, Np.sum, late_rise. cbn. lra. Qed.

Lemma late_rise_std : Np.std (Np.diff late_rise) = 2.
Proof.
  unfold Np.std. rewrite late_rise_mean.
  unfold Np.mean, Np.sum, late_rise. cbn. unfold Rsqr.
  replace (_ / _) with (2 * 2) by lra.
  apply sqrt_square. lra.
Qed.

Lemma early_rise_mean : Np.mean (Np.diff early_rise) = 1.
Proof. unfold Np.mean, Np.sum, early_rise. cbn. lra. Qed.

Lemma early_rise_std : Np.std (Np.diff early_rise) = 2.
Proof.
  unfold Np.std. rewrite early_rise_mean.
  unfold Np.mean, Np.sum, early_rise. cbn. unfold Rsqr.
  replace (_ / _) with (2 * 2) by lra.
  apply sqrt_square. lra.
Qed.

Lemma late_rise_first : 
  first_exceeding (Np.mean (Np.diff late_rise) + Np.std (Np.diff late_rise))
                  (Np.diff late_rise) = Some 4%nat.
Proof.
  rewrite late_rise_mean, late_rise_std. unfold late_rise. cbn.
  Rdecide. reflexivity.
Qed.

Lemma early_rise_first : 
  first_exceeding (Np.mean (Np.diff early_rise) + Np.std (Np.diff early_rise))
                  (Np.diff early_rise) = Some 0%nat.
Proof.
  rewrite early_rise_mean, early_rise_std. unfold early_rise. cbn.
  Rdecide. reflexivity.
Qed.

Lemma estimate_late_rise :
  estimate_parameters sample_timestamps late_rise = Ok (40, 0, 5).
Proof.
  unfold estimate_parameters.
  rewrite inflection_scan_eq, late_rise_first, late_rise_std.
  rewrite (getitem_last late_rise 0) by discriminate.
  rewrite Z.add_0_l, lag_index_nat. cbn [pred].
  rewrite (getitem_nat sample_timestamps 3 40 eq_refl).
  rewrite slice_to_last by (cbn; lia).
  unfold late_rise. cbn. Rdecide. cbn.
  repeat f_equal. lra.
Qed.

Lemma estimate_early_rise :
  estimate_parameters sample_timestamps early_rise = Ok (10, 5, 5).
Proof.
  unfold estimate_parameters.
  rewrite inflection_scan_eq, early_rise_first, early_rise_std.
  rewrite (getitem_last early_rise 0) by discriminate.
  rewrite Z.add_0_l, lag_index_nat. cbn [pred].
  rewrite (getitem_nat sample_timestamps 0 10 eq_refl).
  rewrite slice_to_last by (cbn; lia).
  unfold early_rise. cbn. Rdecide. cbn.
  repeat f_equal.
  rewrite !(Rmax_left (5 - 0) (5 - 5)) by lra. lra.
Qed.

Lemma estimate_parameters_empty : estimate_parameters [] [] = Raise IndexError.
Proof. reflexivity. Qed.

Lemma late_rise_first_above :
  first_above (Np.mean (Np.diff late_rise) + Np.std (Np.diff late_rise))
              (Np.diff late_rise) 4.
Proof. apply first_exceeding_Some, late_rise_first. Qed.

(** C3 (the code departs from the claim and from its docstring).  On the
    timestamps 10..60 and the measurements 0, 0, 0, 0, 0, 5 the differences
    are 0, 0, 0, 0, 5 and the threshold is 1 + 2: the first difference
    above it is at index 4.  The largest difference up to and including
    that index is 5, and so is the largest change after the lag time, from
    index 3 on; the returned lag_time is 40, the timestamp before index 4,
    but the returned growth_rate is 0: the slice [diffs[i - 1: -1]] leaves
    the last difference out. *)
Theorem estimate_parameters_growth_rate_drops_last :
  first_above (Np.mean (Np.diff late_rise) + Np.std (Np.diff late_rise))
              (Np.diff late_rise) 4 /\
  max (firstn (4 + 1) (Np.diff late_rise)) = Ok 5 /\
  max (skipn 3 (Np.diff late_rise)) = Ok 5 /\
  estimate_parameters sample_timestamps late_rise = Ok (40, 0, 5).
Proof.
  split; [exact late_rise_first_above|].
  split; [|split; [|exact estimate_late_rise]].
  - unfold late_rise. cbn. f_equal.
    replace (0 - 0) with 0 by lra. replace (5 - 0) with 5 by lra.
    rewrite !(Rmax_left 0 0) by lra. apply Rmax_right. lra.
  - unfold late_rise. cbn. f_equal.
    replace (0 - 0) with 0 by lra. replace (5 - 0) with 5 by lra.
    apply Rmax_right. lra.
Qed.

(** C6. [estimate_parameters] raises ValueError exactly when the two
    collections differ in length; with equal lengths and at least one
    element it returns its three estimates. *)
Theorem estimate_parameters_length_check (ts ms : list R) :
  (length ts <> length ms -> estimate_parameters ts ms = Raise ValueError) /\
  (estimate_parameters ts ms = Raise ValueError -> length ts <> length ms) /\
  (length ts = length ms -> ms <> [] ->
   exists r, estimate_parameters ts ms = Ok r).
Proof.
  assert (Hok : length ts = length ms -> ms <> [] ->
                exists r, estimate_parameters ts ms = Ok r).
  { intros Hlen Hne.
    destruct (estimate_parameters_defined ts ms Hlen Hne) as (cc & H).
    destruct (first_exceeding _ _).
    - destruct H as (lag & gr & H & _). eauto.
    - eauto. }
  split; [|split; [|exact Hok]].
  - intros Hlen. unfold estimate_parameters. now rewrite (len_neqb _ _ Hlen).
  - intros Hraise Hlen. destruct ms as [|m ms'].
    + destruct ts; [|discriminate].
      rewrite estimate_parameters_empty in Hraise. discriminate.
    + destruct (Hok Hlen ltac:(discriminate)) as (r & Hr). congruence.
Qed.

Lemma estimate_parameters_length_check_witness :
  estimate_parameters [10; 20] [1] = Raise ValueError /\
  exists r, estimate_parameters sample_timestamps late_rise = Ok r.
Proof.
  split.
  - apply (proj1 (estimate_parameters_length_check [10; 20] [1])).
    cbn. lia.
  - apply (proj2 (proj2 (estimate_parameters_length_check
                           sample_timestamps late_rise)));
      [reflexivity | discriminate].
Defined.



End EstimateTheorems.

(** ** Lemmas: floats and durations *)

Module FloatFacts.
Import Py PyFacts Notions.
Local Open Scope R_scope.

Lemma e_gt_2 : 2 < e.
Proof. unfold e. pose proof (exp_ineq1 1 ltac:(lra)). lra. Qed.

Lemma e_le_3 : e <= 3.
Proof. exact exp_le_3. Qed.

Lemma float_max_ge_pow (n : nat) : (n <= 1023)%nat -> 2 ^ n <= float_max.
Proof.
  intros Hn. unfold float_max.
  assert (Hle : 2 ^ n <= 2 ^ 1023) by (apply Rle_pow; [lra | exact Hn]).
  assert (H52 : 1 <= 2 ^ 52) by (apply pow_R1_Rle; lra).
  assert (Hinv : / 2 ^ 52 <= 1).
  { rewrite <- Rinv_1. apply Rinv_le_contravar; lra. }
  assert (0 < 2 ^ n) by (apply pow_lt; lra).
  nra.
Qed.

Lemma float_max_ge_1 : 1 <= float_max.
Proof. apply (float_max_ge_pow 0). lia. Qed.

Lemma float_max_lt_pow : float_max < 2 ^ 1024.
Proof.
  unfold float_max. rewrite <- (tech_pow_Rmult 2 1023).
  assert (0 < 2 ^ 1023) by (apply pow_lt; lra).
  assert (0 < / 2 ^ 52) by (apply Rinv_0_lt_compat, pow_lt; lra).
  nra.
Qed.

(** Anything up to 10^15 in magnitude is within the range of a double. *)
Lemma in_range_small (x : R) : Rabs x <= 10 ^ 15 -> in_range x.
Proof.
  intros Hx. unfold in_range.
  pose proof (float_max_ge_pow 51 ltac:(lia)) as H51.
  rewrite <- (tech_pow_Rmult 2 50) in H51.
  assert (H : (10 : R) ^ 15 <= 2 ^ 50).
  { rewrite !pow_IZR. apply IZR_le. vm_compute. discriminate. }
  lra.
Qed.

Lemma in_range_finite (x : R) : in_range x -> Rabs x <= float_max.
Proof.
  unfold in_range. intros Hx. pose proof float_max_ge_1. lra.
Qed.

Lemma pow2_le_exp (n : nat) : 2 ^ n <= exp (INR n).
Proof.
  induction n as [|n IH].
  - cbn. rewrite exp_0. lra.
  - rewrite S_INR, exp_plus, <- tech_pow_Rmult.
    pose proof e_gt_2 as He. unfold e in He.
    assert (0 < 2 ^ n) by (apply pow_lt; lra).
    nra.
Qed.

Lemma exp_overflows (x : R) : 1025 <= x -> 2 * float_max <= exp x.
Proof.
  intros Hx. pose proof (pow2_le_exp 1025) as Hpow.
  replace (INR 1025) with 1025 in Hpow
    by (rewrite INR_IZR_INZ; reflexivity).
  rewrite <- (tech_pow_Rmult 2 1024) in Hpow.
  pose proof float_max_lt_pow.
  destruct Hx as [Hx| <-]; [|lra].
  pose proof (exp_increasing _ _ Hx). lra.
Qed.

Lemma of_real_finite (x : R) : Rabs x <= float_max -> of_real x = Finite x.
Proof.
  intros Hx. unfold of_real. now rewrite (proj2 (Rltb_false _ _) Hx).
Qed.

Lemma of_real_in_range (x : R) : in_range x -> of_real x = Finite x.
Proof. intros Hx. apply of_real_finite, in_range_finite, Hx. Qed.

Lemma of_real_below (x : R) : x < - float_max -> of_real x = Infinity true.
Proof.
  intros Hx. pose proof float_max_ge_1. unfold of_real.
  rewrite (proj2 (Rltb_true float_max (Rabs x))).
  - now rewrite (proj2 (Rltb_true x 0)) by lra.
  - rewrite Rabs_left by lra. lra.
Qed.

Lemma of_real_above (x : R) : float_max < x -> of_real x = Infinity false.
Proof.
  intros Hx. pose proof float_max_ge_1. unfold of_real.
  rewrite (proj2 (Rltb_true float_max (Rabs x))).
  - now rewrite (proj2 (Rltb_false x 0)) by lra.
  - rewrite Rabs_right by lra. lra.
Qed.

Lemma is_zero_false (x : R) : x <> 0 -> is_zero x = false.
Proof. intros Hx. unfold is_zero. now destruct (Req_dec_T x 0). Qed.

Lemma is_zero_true : is_zero 0 = true.
Proof. unfold is_zero. now destruct (Req_dec_T 0 0). Qed.

(** The log-sum-exp of a single number is that number. *)
Lemma logsumexp_finite (x : R) :
  in_range x -> Np.logsumexp (Finite x) = Finite x.
Proof.
  intros Hx. unfold Np.logsumexp. cbn [isfinite fsub].
  replace (x - x) with 0 by lra.
  rewrite (of_real_in_range 0)
    by (unfold in_range; rewrite Rabs_R0; pose proof float_max_ge_1; lra).
  cbn [Np.np_exp]. rewrite exp_0.
  rewrite (proj2 (Rltb_false float_max 1)) by (pose proof float_max_ge_1; lra).
  cbn [Np.np_log]. rewrite (proj2 (Rltb_true 0 1)) by lra.
  rewrite ln_1. cbn [fadd]. rewrite Rplus_0_l. now apply of_real_in_range.
Qed.

Lemma logsumexp_infinity (negative : bool) :
  Np.logsumexp (Infinity negative) = Infinity negative.
Proof.
  unfold Np.logsumexp. destruct negative; cbn.
  - rewrite (proj2 (Rltb_false 0 0)) by lra. now rewrite is_zero_true.
  - reflexivity.
Qed.

(** *** Rounding to the nearest integer *)

Lemma floor_spec (x : R) : IZR (floor x) <= x < IZR (floor x) + 1.
Proof.
  unfold floor. rewrite minus_IZR. destruct (archimed x). lra.
Qed.

Lemma floor_IZR (z : Z) : floor (IZR z) = z.
Proof.
  pose proof (floor_spec (IZR z)) as [Hlo Hhi].
  apply le_IZR in Hlo.
  rewrite <- plus_IZR in Hhi. apply lt_IZR in Hhi. lia.
Qed.

Lemma round_half_even_spec (x : R) :
  - (1 / 2) <= IZR (round_half_even x) - x <= 1 / 2.
Proof.
  unfold round_half_even. pose proof (floor_spec x) as [Hlo Hhi].
  destruct (Rlt_dec (x - IZR (floor x)) (1 / 2)) as [H1|H1].
  - rewrite (proj2 (Rltb_true _ _) H1). lra.
  - rewrite (proj2 (Rltb_false _ _)) by lra.
    destruct (Rlt_dec (1 / 2) (x - IZR (floor x))) as [H2|H2].
    + rewrite (proj2 (Rltb_true _ _) H2). rewrite plus_IZR. lra.
    + rewrite (proj2 (Rltb_false _ _)) by lra.
      destruct (Z.even _); [|rewrite plus_IZR]; lra.
Qed.

Lemma round_half_even_IZR (z : Z) : round_half_even (IZR z) = z.
Proof.
  unfold round_half_even. rewrite floor_IZR.
  now rewrite (proj2 (Rltb_true _ _)) by lra.
Qed.

Lemma round_half_even_nonneg (x : R) : 0 <= x -> (0 <= round_half_even x)%Z.
Proof.
  intros Hx. pose proof (round_half_even_spec x) as [Hlo _].
  assert (H : -1 < IZR (round_half_even x)) by lra.
  apply lt_IZR in H. lia.
Qed.

Lemma round_half_even_ge (x : R) (n : Z) :
  IZR n <= x -> (n <= round_half_even x)%Z.
Proof.
  intros Hx. pose proof (round_half_even_spec x) as [Hlo _].
  assert (H : IZR (n - 1) < IZR (round_half_even x))
    by (rewrite minus_IZR; lra).
  apply lt_IZR in H. lia.
Qed.

Lemma round_half_even_le (x : R) (n : Z) :
  x <= IZR n -> (round_half_even x <= n)%Z.
Proof.
  intros Hx. pose proof (round_half_even_spec x) as [_ Hhi].
  assert (H : IZR (round_half_even x) < IZR (n + 1))
    by (rewrite plus_IZR; lra).
  apply lt_IZR in H. lia.
Qed.

(** *** Durations *)

Lemma timedelta_seconds_whole (n : Z) :
  (Z.abs (n * 1000000 / 86400000000) <= 999999999)%Z ->
  timedelta_seconds (Finite (IZR n)) = Ok (whole_seconds n).
Proof.
  intros Hn. unfold timedelta_seconds, whole_seconds.
  rewrite <- mult_IZR, round_half_even_IZR.
  destruct (Z.gtb_spec (Z.abs (n * 1000000 / 86400000000)) 999999999);
    [lia | reflexivity].
Qed.

Lemma timedelta_seconds_zero :
  timedelta_seconds (Finite 0) = Ok (whole_seconds 0).
Proof. apply (timedelta_seconds_whole 0). cbn. lia. Qed.

(** What [timedelta(seconds = s)] does with a finite number. *)
Lemma timedelta_seconds_finite (s : R) :
  (representable (microseconds_of s) ->
   timedelta_seconds (Finite s)
   = Ok {| total_microseconds := microseconds_of s |}) /\
  (~ representable (microseconds_of s) ->
   timedelta_seconds (Finite s) = Raise OverflowError).
Proof.
  unfold timedelta_seconds, representable, microseconds_of.
  destruct (Z.gtb_spec (Z.abs (round_half_even (s * 1000000) / 86400000000))
                       999999999); split; intros H'; try reflexivity; lia.
Qed.

(** A timedelta holds up to 999999999 days, and nothing of 1000000000
    days or more. *)
Lemma representable_within (s : R) :
  Rabs s <= days 999999999 -> representable (microseconds_of s).
Proof.
  unfold representable, microseconds_of, days. intros Hs.
  assert (Hlo : - (999999999 * 86400) <= s)
    by (unfold Rabs in Hs; destruct (Rcase_abs s); lra).
  assert (Hhi : s <= 999999999 * 86400)
    by (unfold Rabs in Hs; destruct (Rcase_abs s); lra).
  assert (Hge : (-86399999913600000000 <= round_half_even (s * 1000000))%Z)
    by (apply round_half_even_ge; lra).
  assert (Hle : (round_half_even (s * 1000000) <= 86399999913600000000)%Z)
    by (apply round_half_even_le; lra).
  set (us := round_half_even (s * 1000000)) in *.
  pose proof (Z.div_mod us 86400000000 ltac:(lia)) as Hdm.
  pose proof (Z.mod_pos_bound us 86400000000 ltac:(lia)). lia.
Qed.

Lemma not_representable_beyond (s : R) :
  days 1000000000 <= Rabs s -> ~ representable (microseconds_of s).
Proof.
  unfold representable, microseconds_of, days. intros Hs Hrep.
  set (us := round_half_even (s * 1000000)) in *.
  pose proof (Z.div_mod us 86400000000 ltac:(lia)) as Hdm.
  pose proof (Z.mod_pos_bound us 86400000000 ltac:(lia)) as Hmod.
  unfold Rabs in Hs. destruct (Rcase_abs s) as [Hneg|Hpos].
  - assert (Hle : (us <= -86400000000000000000)%Z)
      by (apply round_half_even_le; lra).
    lia.
  - assert (Hge : (86400000000000000000 <= us)%Z)
      by (apply round_half_even_ge; lra).
    lia.
Qed.

Lemma days_in_range (s : R) : Rabs s <= days 999999999 -> in_range s.
Proof.
  unfold days. intros Hs. apply in_range_small.
  assert (H15 : (10 : R) ^ 15 = 1000000000000000).
  { rewrite pow_IZR. reflexivity. }
  rewrite H15. lra.
Qed.

End FloatFacts.

(** ** Theorems: [gompertz] *)

Module GompertzTheorems.
Import Py PyFacts Notions GrowthCurve FloatFacts.
Local Open Scope R_scope.

(** [gompertz] on finite numbers, as far as the final exponential, when
    nothing on the way leaves the range of a double. *)
Lemma gompertz_finite (t y0 lag mu A : R) :
  A <> 0 ->
  exponent_in_range t lag mu A ->
  gompertz (Finite t) (Finite y0) (Finite lag) (Finite mu) (Finite A)
  = try_except is_OverflowError
      (scale <- math_exp (Finite (- exponent t lag mu A)) ;;
       Ok (fadd (Finite y0) (fmul (Finite A) scale)))
      (Ok (Finite 0)).
Proof.
  intros HA (H1 & H2 & H3 & H4 & H5). unfold gompertz, exponent in *.
  cbn [fmul fdiv]. rewrite (of_real_in_range _ H1), (is_zero_false A HA).
  rewrite (of_real_in_range _ H2). cbn [bind fsub].
  rewrite (of_real_in_range _ H3). cbn [fmul].
  rewrite (of_real_in_range _ H4). cbn [fadd].
  rewrite (of_real_in_range _ H5), (logsumexp_finite _ H5). reflexivity.
Qed.

(** What the code computes where nothing leaves the range of a double. *)
Lemma gompertz_closed_form (t y0 lag mu A : R) :
  A <> 0 ->
  exponent_in_range t lag mu A ->
  in_range (exp (- exponent t lag mu A)) ->
  in_range (A * exp (- exponent t lag mu A)) ->
  in_range (y0 + A * exp (- exponent t lag mu A)) ->
  gompertz (Finite t) (Finite y0) (Finite lag) (Finite mu) (Finite A)
  = Ok (Finite (y0 + A * exp (- exponent t lag mu A))).
Proof.
  intros HA Hx Hexp Hmul Hadd. rewrite (gompertz_finite t y0 lag mu A HA Hx).
  apply in_range_finite in Hexp.
  rewrite Rabs_pos_eq in Hexp by (left; apply exp_pos).
  cbn [math_exp]. rewrite (proj2 (Rltb_false _ _) Hexp).
  cbn [bind fmul]. rewrite (of_real_in_range _ Hmul). cbn [fadd].
  rewrite (of_real_in_range _ Hadd). reflexivity.
Qed.

Lemma exponent_at_one : exponent 0 0 1 1 = 1.
Proof. unfold exponent. field. Qed.

Lemma exponent_in_range_at_one : exponent_in_range 0 0 1 1.
Proof.
  pose proof e_gt_2. pose proof e_le_3.
  unfold exponent_in_range. rewrite exponent_at_one.
  repeat split; apply in_range_small; apply Rabs_le;
    replace (1 * e / 1) with e by field; nra.
Qed.

(** C1 (the code departs from the reference).  At elapsed_time 0,
    initial_size 0, lag_time 0, growth_rate 1 and carrying_capacity 1 no
    overflow occurs and [gompertz] returns exp(-1), while the Gompertz
    reference gives exp(-exp(1)): the log-sum-exp of a single number is
    that number, not its exponential. *)
Theorem gompertz_differs_from_reference :
  gompertz (Finite 0) (Finite 0) (Finite 0) (Finite 1) (Finite 1)
    = Ok (Finite (exp (- 1))) /\
  gompertz_reference 0 0 0 1 1 = exp (- exp 1) /\
  exp (- 1) <> exp (- exp 1).
Proof.
  assert (Hexp : exp (- (1)) < 1).
  { pose proof (exp_increasing (- (1)) 0 ltac:(lra)) as H.
    now rewrite exp_0 in H. }
  pose proof (exp_pos (- (1))) as Hpos.
  split; [|split].
  - rewrite gompertz_closed_form; rewrite ?exponent_at_one.
    + do 2 f_equal. replace (- (1)) with (-1) by lra. lra.
    + lra.
    + exact exponent_in_range_at_one.
    + apply in_range_small, Rabs_le. lra.
    + apply in_range_small, Rabs_le. lra.
    + apply in_range_small, Rabs_le. lra.
  - unfold gompertz_reference.
    replace (1 * e / 1 * (0 - 0) + 1) with 1 by (field_simplify; lra).
    lra.
  - intros H. apply exp_inv in H. pose proof e_gt_2. unfold e in *. lra.
Qed.

Lemma gompertz_no_overflow_error (t y0 lag mu A : float) :
  gompertz t y0 lag mu A <> Raise OverflowError.
Proof.
  unfold gompertz.
  destruct (fdiv _ _) as [rate|[]]; cbn [bind try_except is_OverflowError];
    try discriminate.
  destruct (math_exp _) as [v|[]]; cbn; discriminate.
Qed.


Lemma exponent_late : exponent 2000 0 1 1 = 1 - 2000 * e.
Proof. unfold exponent. field. Qed.

Lemma exponent_in_range_late : exponent_in_range 2000 0 1 1.
Proof.
  pose proof e_gt_2. pose proof e_le_3.
  unfold exponent_in_range. rewrite exponent_late.
  assert (H15 : (10 : R) ^ 15 = 1000000000000000).
  { rewrite pow_IZR. reflexivity. }
  repeat split; apply in_range_small; rewrite H15; apply Rabs_le;
    replace (1 * e / 1) with e by field; nra.
Qed.



End GompertzTheorems.


(** ** Theorems: fitting and the cached properties *)

Module FitTheorems.
Import Py PyFacts Notions GrowthCurve EstimateFacts Samples FloatFacts.
Local Open Scope R_scope.

Lemma insert_sorted_length {A : Type} (ltb : A -> A -> bool) (x : A) (l : list A) :
  length (insert_sorted ltb x l) = S (length l).
Proof.
  induction l as [|y l IH]; cbn; [reflexivity|].
  destruct (ltb y x); cbn; [now rewrite IH | reflexivity].
Qed.

Lemma sorted_length {A : Type} (ltb : A -> A -> bool) (l : list A) :
  length (sorted ltb l) = length l.
Proof.
  unfold sorted. induction l as [|x l IH]; cbn [fold_right]; [reflexivity|].
  now rewrite insert_sorted_length, IH.
Qed.

Lemma ln_2_bounds : 1 / 2 < ln 2 < 1.
Proof.
  pose proof e_gt_2 as He2. pose proof e_le_3 as He3. unfold e in *.
  split.
  - assert (Hhalf : exp (1 / 2) < 2).
    { pose proof (exp_plus (1 / 2) (1 / 2)) as Hp.
      replace (1 / 2 + 1 / 2) with 1 in Hp by lra.
      pose proof (exp_pos (1 / 2)). nra. }
    rewrite <- (ln_exp (1 / 2)). apply ln_increasing; [apply exp_pos | exact Hhalf].
  - rewrite <- (ln_exp 1). apply ln_increasing; lra.
Qed.

Section WithOptimizer.

Variable covariance : Type.
Variable curve_fit :
  curve -> list R -> list R -> list R -> result (list float * covariance).

Abbreviation fit := (fit_growth_curve covariance curve_fit).

(** With at least one observation the optimizer is reached. *)
Lemma fit_arguments_defined (self : instance) (init : option (list R)) :
  growth_curve_data self <> [] ->
  exists ts ms p0, fit_arguments self init = Ok (ts, ms, p0).
Proof.
  intros Hdata. unfold fit_arguments.
  set (ts := map total_seconds _). set (ms := map snd _).
  assert (Hlen : length ts = length ms).
  { unfold ts, ms. now rewrite !length_map, !sorted_length, length_map. }
  assert (Hne : ms <> []).
  { intros Hnil. apply (f_equal (@length R)) in Hnil.
    unfold ms in Hnil. rewrite length_map, sorted_length in Hnil.
    destruct (growth_curve_data self); [congruence | discriminate]. }
  destruct (EstimateTheorems.estimate_parameters_defined ts ms Hlen Hne)
    as (cc & H).
  assert (Hest : exists lag gr, estimate_parameters ts ms = Ok (lag, gr, cc)).
  { destruct (first_exceeding _ _).
    - destruct H as (lag & gr & H & _). eauto.
    - eauto. }
  destruct Hest as (lag & gr & ->). cbn [bind].
  destruct init as [params|]; cbn [bind]; [eauto|].
  destruct ms as [|m ms']; [congruence|]. cbn [min bind]. eauto.
Qed.

(** The fit, split at the call of the optimizer. *)
Lemma fit_growth_curve_split (self : instance) (init : option (list R)) :
  fit self init =
  ('(ts, ms, p0) <- fit_arguments self init ;;
   results <- __fit_curve covariance curve_fit gompertz ts ms p0 ;;
   '(lag_time, growth_rate, carrying_capacity) <-
     match results with
     | Some (popt, conf) =>
         match popt with
         | [_; lag_time; growth_rate; carrying_capacity] =>
             Ok (lag_time, growth_rate, carrying_capacity)
         | _ => Raise ValueError
         end
     | None => Ok (Finite 0, Finite 0, Finite 0)
     end ;;
   lag_time <- timedelta_seconds lag_time ;;
   Ok {| __doubling_time := __doubling_time self;
         __growth_rate := Some growth_rate;
         __carrying_capacity := Some carrying_capacity;
         __lag_time := Some lag_time;
         growth_curve_data := growth_curve_data self;
         fit_calls := S (fit_calls self) |}).
Proof.
  unfold fit_growth_curve, fit_arguments.
  destruct (estimate_parameters _ _) as [[[lag gr] cc]|]; cbn [bind];
    [|reflexivity].
  destruct init; cbn [bind]; [reflexivity|].
  destruct (min _); reflexivity.
Qed.

Lemma fit_no_convergence (self : instance) (init : option (list R))
    (ts ms p0 : list R) :
  fit_arguments self init = Ok (ts, ms, p0) ->
  curve_fit gompertz ts ms p0 = Raise RuntimeError ->
  fit self init =
  Ok {| __doubling_time := __doubling_time self;
        __growth_rate := Some (Finite 0);
        __carrying_capacity := Some (Finite 0);
        __lag_time := Some {| total_microseconds := 0 |};
        growth_curve_data := growth_curve_data self;
        fit_calls := S (fit_calls self) |}.
Proof.
  intros Hargs Hfit. rewrite fit_growth_curve_split, Hargs. cbn [bind].
  unfold __fit_curve. rewrite Hfit. cbn [bind try_except is_RuntimeError].
  rewrite timedelta_seconds_zero. reflexivity.
Qed.

(** What a completed fit leaves behind. *)
Lemma fit_growth_curve_fitted (self self' : instance) (init : option (list R)) :
  fit self init = Ok self' ->
  fitted self' /\
  fit_calls self' = S (fit_calls self) /\
  __doubling_time self' = __doubling_time self /\
  growth_curve_data self' = growth_curve_data self.
Proof.
  rewrite fit_growth_curve_split.
  destruct (fit_arguments self init) as [[[ts ms] p0]|]; cbn [bind];
    [|discriminate].
  destruct (__fit_curve _ _ _ _ _ _) as [results|]; cbn [bind]; [|discriminate].
  match goal with
  | |- bind ?m _ = _ -> _ => destruct m as [[[lag gr] cc]|]
  end; cbn [bind]; [|discriminate].
  destruct (timedelta_seconds lag) as [t|]; cbn [bind]; [|discriminate].
  intros [= <-]. cbn. unfold fitted. cbn. eauto 10.
Qed.

(** C2. Whenever the optimizer, called with the arguments the fit hands
    it, fails to converge (RuntimeError), [fit_growth_curve] returns
    normally and the instance holds carrying_capacity 0, growth_rate 0 and
    a lag_time of zero seconds. *)
Theorem fit_growth_curve_no_convergence (self : instance)
    (init : option (list R)) (ts ms p0 : list R) :
  fit_arguments self init = Ok (ts, ms, p0) ->
  curve_fit gompertz ts ms p0 = Raise RuntimeError ->
  exists self',
    fit self init = Ok self' /\
    __carrying_capacity self' = Some (Finite 0) /\
    __growth_rate self' = Some (Finite 0) /\
    __lag_time self' = Some {| total_microseconds := 0 |}.
Proof.
  intros Hargs Hfit. eexists. split.
  - apply (fit_no_convergence self init ts ms p0 Hargs Hfit).
  - cbn. auto.
Qed.

Lemma growth_rate_cached (self : instance) (g : float) :
  __growth_rate self = Some g ->
  growth_rate covariance curve_fit self = Ok (Some g, self).
Proof. intros H. unfold growth_rate. rewrite H. cbn [bind]. now rewrite H. Qed.

Lemma carrying_capacity_cached (self : instance) (c : float) :
  __carrying_capacity self = Some c ->
  carrying_capacity covariance curve_fit self = Ok (Some c, self).
Proof.
  intros H. unfold carrying_capacity. rewrite H. cbn [bind]. now rewrite H.
Qed.

Lemma lag_time_cached (self : instance) (t : timedelta) :
  __lag_time self = Some t ->
  lag_time covariance curve_fit self = Ok (Some t, self).
Proof. intros H. unfold lag_time. rewrite H. cbn [bind]. now rewrite H. Qed.

(** With a growth rate held, reading the doubling time derives it from
    that rate and runs no fit. *)
Lemma doubling_time_cached (self : instance) (g : float) :
  __growth_rate self = Some g ->
  doubling_time covariance curve_fit self
  = (d <- doubling_of g ;; Ok (d, self)).
Proof.
  intros H. unfold doubling_time, doubling_of.
  rewrite (growth_rate_cached self g H). cbn [bind gt_zero].
  destruct (fgtb g (Finite 0)); cbn [bind]; [|reflexivity].
  rewrite (growth_rate_cached self g H). cbn [bind].
  destruct (fdiv (Finite (log 2)) g); reflexivity.
Qed.

(** The doubling time of a finite growth rate. *)
Lemma doubling_of_finite (g : R) :
  (g <= 0 -> doubling_of (Finite g) = Ok {| total_microseconds := 0 |}) /\
  (0 < g -> representable (microseconds_of (ln 2 / g)) -> in_range (ln 2 / g) ->
   doubling_of (Finite g)
   = Ok {| total_microseconds := microseconds_of (ln 2 / g) |}) /\
  (0 < g -> ~ representable (microseconds_of (ln 2 / g)) ->
   doubling_of (Finite g) = Raise OverflowError).
Proof.
  unfold doubling_of. cbn [fgtb].
  split; [|split].
  - intros Hg. rewrite (proj2 (Rgtb_false g 0) Hg). cbn [bind].
    exact timedelta_seconds_zero.
  - intros Hg Hrep Hrange. rewrite (proj2 (Rgtb_true g 0) Hg).
    cbn [fdiv]. rewrite is_zero_false by lra. cbn [bind]. unfold log.
    rewrite (of_real_in_range _ Hrange).
    now apply timedelta_seconds_finite.
  - intros Hg Hrep. rewrite (proj2 (Rgtb_true g 0) Hg).
    cbn [fdiv]. rewrite is_zero_false by lra. cbn [bind]. unfold log, of_real.
    destruct (Rltb float_max _); [reflexivity|].
    now apply timedelta_seconds_finite.
Qed.

(** The doubling time of a growth rate that is not a finite number. *)
Lemma doubling_of_not_finite (rate : float) :
  isfinite rate = false ->
  doubling_of rate = Ok {| total_microseconds := 0 |}.
Proof.
  unfold doubling_of.
  destruct rate as [g|[]|]; cbn; try discriminate; intros _;
    exact timedelta_seconds_zero.
Qed.

Lemma doubling_seconds_pos (g : R) : 0 < g -> 0 < ln 2 / g.
Proof.
  intros Hg. pose proof (proj1 ln_2_bounds).
  apply Rdiv_lt_0_compat; lra.
Qed.

(** C4 (amended). With a growth rate held by the instance, [doubling_time]
    leaves the instance as it is and returns: a zero duration when the rate
    is not positive (or not a finite number); when the rate is positive and
    ln(2)/growth_rate is at most 999999999 days, the duration of
    ln(2)/growth_rate seconds, to the microsecond; and when
    ln(2)/growth_rate is 1000000001 days or more, beyond what a timedelta
    holds, it raises OverflowError. *)
Theorem doubling_time_spec (self : instance) (rate : float) :
  __growth_rate self = Some rate ->
  (forall g, rate = Finite g -> g <= 0 ->
     doubling_time covariance curve_fit self
     = Ok ({| total_microseconds := 0 |}, self)) /\
  (isfinite rate = false ->
     doubling_time covariance curve_fit self
     = Ok ({| total_microseconds := 0 |}, self)) /\
  (forall g, rate = Finite g -> 0 < g ->
     ln 2 / g <= days 999999999 ->
     doubling_time covariance curve_fit self
     = Ok ({| total_microseconds := microseconds_of (ln 2 / g) |}, self)) /\
  (forall g, rate = Finite g -> 0 < g ->
     days 1000000001 <= ln 2 / g ->
     doubling_time covariance curve_fit self = Raise OverflowError).
Proof.
  intros H. rewrite (doubling_time_cached self rate H).
  refine (conj _ (conj _ (conj _ _))).
  - intros g -> Hg. now rewrite (proj1 (doubling_of_finite g) Hg).
  - intros Hinf. now rewrite (doubling_of_not_finite rate Hinf).
  - intros g -> Hg Hle. pose proof (doubling_seconds_pos g Hg) as Hpos.
    assert (Habs : Rabs (ln 2 / g) <= days 999999999)
      by (rewrite Rabs_pos_eq; lra).
    now rewrite (proj1 (proj2 (doubling_of_finite g)) Hg
                   (representable_within _ Habs) (days_in_range _ Habs)).
  - intros g -> Hg Hge. pose proof (doubling_seconds_pos g Hg) as Hpos.
    assert (Habs : days 1000000000 <= Rabs (ln 2 / g))
      by (rewrite Rabs_pos_eq by lra; unfold days in *; lra).
    now rewrite (proj2 (proj2 (doubling_of_finite g)) Hg
                   (not_representable_beyond _ Habs)).
Qed.

Lemma fitted_reads_cached (self : instance) :
  fitted self -> reads_cached covariance curve_fit self.
Proof.
  intros ((t & Ht) & (g & Hg) & (c & Hc)). exists t, g, c.
  split; [now apply lag_time_cached|].
  split; [now apply growth_rate_cached|].
  split; [now apply carrying_capacity_cached|].
  now apply doubling_time_cached.
Qed.

Lemma fitted_settled (self : instance) :
  fitted self -> settled covariance curve_fit self self.
Proof.
  intros H. split; [exact H|]. split; [lia|]. split; [reflexivity|].
  now apply fitted_reads_cached.
Qed.

Lemma fit_settled (self self' : instance) (init : option (list R)) :
  fit self init = Ok self' -> settled covariance curve_fit self self'.
Proof.
  intros H. apply fit_growth_curve_fitted in H as (Hf & Hc & Hd & _).
  split; [exact Hf|]. split; [lia|]. split; [exact Hd|].
  now apply fitted_reads_cached.
Qed.

(** C5 (amended). lag_time, growth_rate and carrying_capacity are set
    together by one run of [fit_growth_curve] and held by the instance;
    nothing is stored for doubling_time, which every read derives from the
    held growth_rate.  On an instance that is either untouched or fitted,
    whichever property is read first runs at most one fit, and from then on
    every read of lag_time, growth_rate and carrying_capacity returns the
    held value, every read of doubling_time does what deriving it from the
    held growth_rate does (a duration, or the exception of a duration that
    cannot be built), and no read changes the instance or its count of
    fits; an explicit call of [fit_growth_curve] is what runs the fit
    again. *)
Theorem properties_cached (self : instance) :
  unfitted self \/ fitted self ->
  (forall v self', lag_time covariance curve_fit self = Ok (v, self') ->
                   settled covariance curve_fit self self') /\
  (forall v self', growth_rate covariance curve_fit self = Ok (v, self') ->
                   settled covariance curve_fit self self') /\
  (forall v self', carrying_capacity covariance curve_fit self = Ok (v, self') ->
                   settled covariance curve_fit self self') /\
  (forall v self', doubling_time covariance curve_fit self = Ok (v, self') ->
                   settled covariance curve_fit self self') /\
  (forall init self', fit self init = Ok self' ->
                      fitted self' /\ fit_calls self' = S (fit_calls self)).
Proof.
  intros Hstate.
  assert (Hfit : forall init self', fit self init = Ok self' ->
                   fitted self' /\ fit_calls self' = S (fit_calls self)).
  { intros init self' H.
    apply fit_growth_curve_fitted in H as (Hf & Hc & _). auto. }
  destruct Hstate as [(Hl & Hg & Hc) | Hfitted].
  - refine (conj _ (conj _ (conj _ (conj _ Hfit)))).
    + intros v self'. unfold lag_time. rewrite Hl.
      destruct (fit self None) as [s|] eqn:E; cbn [bind]; [|discriminate].
      intros [= _ <-]. eapply fit_settled, E.
    + intros v self'. unfold growth_rate. rewrite Hg.
      destruct (fit self None) as [s|] eqn:E; cbn [bind]; [|discriminate].
      intros [= _ <-]. eapply fit_settled, E.
    + intros v self'. unfold carrying_capacity. rewrite Hc.
      destruct (fit self None) as [s|] eqn:E; cbn [bind]; [|discriminate].
      intros [= _ <-]. eapply fit_settled, E.
    + intros v self'. unfold doubling_time.
      unfold growth_rate at 1. rewrite Hg.
      destruct (fit self None) as [s|] eqn:E; cbn [bind]; [|discriminate].
      pose proof (fit_settled _ _ _ E) as Hs.
      destruct (fit_growth_curve_fitted _ _ _ E) as ((_ & (g & Hgs) & _) & _).
      rewrite Hgs. cbn [gt_zero bind].
      rewrite (growth_rate_cached s g Hgs). cbn [bind].
      destruct (fgtb g (Finite 0)); cbn [bind].
      * destruct (fdiv (Finite (log 2)) g) as [seconds|]; cbn [bind];
          [|discriminate].
        destruct (timedelta_seconds seconds); cbn [bind]; [|discriminate].
        intros [= _ <-]. exact Hs.
      * destruct (timedelta_seconds (Finite 0)); cbn [bind]; [|discriminate].
        intros [= _ <-]. exact Hs.
  - pose proof (fitted_reads_cached self Hfitted) as (t & g & c & Rl & Rg & Rc & Rd).
    refine (conj _ (conj _ (conj _ (conj _ Hfit)))).
    + intros v self'. rewrite Rl. intros [= _ <-]. now apply fitted_settled.
    + intros v self'. rewrite Rg. intros [= _ <-]. now apply fitted_settled.
    + intros v self'. rewrite Rc. intros [= _ <-]. now apply fitted_settled.
    + intros v self'. rewrite Rd.
      destruct (doubling_of g); cbn [bind]; [|discriminate].
      intros [= _ <-]. now apply fitted_settled.
Qed.

End WithOptimizer.

Lemma fit_arguments_single :
  fit_arguments (new_instance single_observation) None
  = Ok ([0 / 1000000], [1], [1; 0; 0; 1]).
Proof.
  unfold fit_arguments, new_instance, single_observation. cbn [growth_curve_data].
  cbn [map fst snd sorted fold_right insert_sorted total_seconds whole_seconds
       total_microseconds Z.mul].
  unfold estimate_parameters.
  rewrite (getitem_last [1] 0) by discriminate. reflexivity.
Qed.

Lemma fit_single_no_convergence :
  fit_growth_curve unit never_converges (new_instance single_observation) None
  = Ok single_fitted.
Proof.
  rewrite (fit_no_convergence unit never_converges _ None _ _ _
             fit_arguments_single eq_refl).
  reflexivity.
Qed.

Lemma fit_growth_curve_no_convergence_witness :
  fit_arguments (new_instance single_observation) None
    = Ok ([0 / 1000000], [1], [1; 0; 0; 1]) /\
  never_converges gompertz [0 / 1000000] [1] [1; 0; 0; 1] = Raise RuntimeError /\
  exists self',
    fit_growth_curve unit never_converges (new_instance single_observation) None
      = Ok self' /\
    __carrying_capacity self' = Some (Finite 0) /\
    __growth_rate self' = Some (Finite 0) /\
    __lag_time self' = Some {| total_microseconds := 0 |}.
Proof.
  split; [exact fit_arguments_single|]. split; [reflexivity|].
  apply (fit_growth_curve_no_convergence unit never_converges
           (new_instance single_observation) None [0 / 1000000] [1] [1; 0; 0; 1]
           fit_arguments_single eq_refl).
Defined.

(** The doubling time of growth rate 2 is less than a second, that of
    growth rate 1e-15 more than 1000000001 days. *)
Lemma doubling_seconds_growing : ln 2 / 2 <= days 999999999.
Proof. pose proof ln_2_bounds. unfold days. lra. Qed.

Lemma doubling_seconds_barely_growing : days 1000000001 <= ln 2 / / 10 ^ 15.
Proof.
  pose proof ln_2_bounds as [Hlo Hhi].
  assert (H15 : (10 : R) ^ 15 = 1000000000000000).
  { rewrite pow_IZR. reflexivity. }
  rewrite H15. unfold days.
  replace (ln 2 / / 1000000000000000) with (ln 2 * 1000000000000000)
    by (field; lra).
  lra.
Qed.

Lemma doubling_time_spec_witness :
  (doubling_time unit never_converges single_fitted
   = Ok ({| total_microseconds := 0 |}, single_fitted)) /\
  (doubling_time unit never_converges growing
   = Ok ({| total_microseconds := microseconds_of (ln 2 / 2) |}, growing)) /\
  (doubling_time unit never_converges barely_growing = Raise OverflowError).
Proof.
  split; [|split].
  - apply (proj1 (doubling_time_spec unit never_converges single_fitted
                    (Finite 0) eq_refl) 0 eq_refl).
    lra.
  - apply (proj1 (proj2 (proj2 (doubling_time_spec unit never_converges growing
                                  (Finite 2) eq_refl))) 2 eq_refl);
      [lra | exact doubling_seconds_growing].
  - apply (proj2 (proj2 (proj2 (doubling_time_spec unit never_converges
                                  barely_growing (Finite (/ 10 ^ 15)) eq_refl)))
             (/ 10 ^ 15) eq_refl);
      [apply Rinv_0_lt_compat, pow_lt; lra
      | exact doubling_seconds_barely_growing].
Defined.

Lemma fit_single_slowly :
  fit_growth_curve unit converges_slowly (new_instance single_observation) None
  = Ok barely_growing.
Proof.
  rewrite fit_growth_curve_split, fit_arguments_single. cbn [bind].
  unfold __fit_curve, converges_slowly. cbn [bind try_except].
  rewrite (timedelta_seconds_whole 30) by (cbn; lia). reflexivity.
Qed.

(** C4 as stated fails: the instance fitted to the growth rate 1e-15 holds
    a positive growth rate and does not return ln(2)/growth_rate as a
    duration; reading [doubling_time] raises OverflowError. *)
Lemma doubling_time_overflow_counterexample :
  fit_growth_curve unit converges_slowly (new_instance single_observation) None
    = Ok barely_growing /\
  fitted barely_growing /\
  __growth_rate barely_growing = Some (Finite (/ 10 ^ 15)) /\
  0 < / 10 ^ 15 /\
  doubling_time unit converges_slowly barely_growing = Raise OverflowError.
Proof.
  assert (Hpos : 0 < / 10 ^ 15) by (apply Rinv_0_lt_compat, pow_lt; lra).
  split; [exact fit_single_slowly|].
  split; [unfold fitted, barely_growing; cbn; eauto 10|].
  split; [reflexivity|]. split; [exact Hpos|].
  rewrite (doubling_time_cached unit converges_slowly barely_growing
             (Finite (/ 10 ^ 15)) eq_refl).
  rewrite (proj2 (proj2 (doubling_of_finite (/ 10 ^ 15))) Hpos).
  - reflexivity.
  - apply not_representable_beyond.
    pose proof doubling_seconds_barely_growing as Hge.
    pose proof (doubling_seconds_pos _ Hpos).
    rewrite Rabs_pos_eq by lra. unfold days in *. lra.
Qed.

Lemma growth_rate_single :
  growth_rate unit never_converges (new_instance single_observation)
  = Ok (Some (Finite 0), single_fitted).
Proof.
  unfold growth_rate. cbn [__growth_rate new_instance].
  rewrite fit_single_no_convergence. reflexivity.
Qed.

Lemma properties_cached_witness :
  unfitted (new_instance single_observation) /\
  growth_rate unit never_converges (new_instance single_observation)
    = Ok (Some (Finite 0), single_fitted) /\
  settled unit never_converges (new_instance single_observation) single_fitted.
Proof.
  assert (Hun : unfitted (new_instance single_observation))
    by (repeat split).
  split; [exact Hun|]. split; [exact growth_rate_single|].
  apply (proj1 (proj2 (properties_cached unit never_converges
                         (new_instance single_observation) (or_introl Hun)))
           (Some (Finite 0)) single_fitted growth_rate_single).
Defined.

(** C5 as stated fails for doubling_time: after the fit pass on one
    observation the instance holds the three fitted parameters and nothing
    for the doubling time, and reading [doubling_time] stores nothing
    either. *)
Lemma doubling_time_not_cached_counterexample :
  fit_growth_curve unit never_converges (new_instance single_observation) None
    = Ok single_fitted /\
  fitted single_fitted /\
  __doubling_time single_fitted = None /\
  exists d self',
    doubling_time unit never_converges single_fitted = Ok (d, self') /\
    __doubling_time self' = None.
Proof.
  split; [exact fit_single_no_convergence|].
  split; [unfold fitted, single_fitted; cbn; eauto 10|].
  split; [reflexivity|].
  exists {| total_microseconds := 0 |}, single_fitted.
  split; [|reflexivity].
  rewrite (doubling_time_cached unit never_converges single_fitted (Finite 0)
             eq_refl).
  rewrite (proj1 (doubling_of_finite 0)) by lra. reflexivity.
Qed.

End FitTheorems.


(** ** Theorems: clustering *)

Module ColonyTheorems.
Import Colony.
Local Open Scope R_scope.

Lemma cluster_inhabited (d : Timepoint) (rest : list Timepoint) (distance : R) :
  exists tracks, cluster (d :: rest) distance = Ok tracks /\ tracks <> [].
Proof.
  eexists. split; [reflexivity|]. cbn. discriminate.
Qed.

(** C8. [cluster] applied to an empty detection sequence fails with
    InvalidArgument, whatever the distance. *)
Theorem cluster_empty (distance : R) :
  cluster [] distance = Raise InvalidArgument.
Proof. reflexivity. Qed.

End ColonyTheorems.

(** ** Theorems: the rest of scanlag/utilities.py *)

Module LatticeTheorems.
Import Utilities UtilitiesRest.
Local Open Scope Z_scope.

Lemma wrap_int64_small (z : Z) :
  - 2 ^ 63 <= z < 2 ^ 63 -> wrap_int64 z = z.
Proof.
  intros Hz. unfold wrap_int64. rewrite Z.mod_small; lia.
Qed.

Lemma wrap_int64_mul_l (a b : Z) : wrap_int64 (wrap_int64 a * b) = wrap_int64 (a * b).
Proof.
  unfold wrap_int64. f_equal.
  pose proof (Z.div_mod (a + 2 ^ 63) (2 ^ 64) ltac:(lia)) as Hdm.
  replace (((a + 2 ^ 63) mod 2 ^ 64 - 2 ^ 63) * b + 2 ^ 63)
    with (a * b + 2 ^ 63 + (- ((a + 2 ^ 63) / 2 ^ 64) * b) * 2 ^ 64) by nia.
  apply Z_mod_plus_full.
Qed.

Lemma fold_wrap (a : list Z) (acc : Z) :
  fold_left (fun acc x => wrap_int64 (acc * x)) a (wrap_int64 acc)
  = wrap_int64 (acc * fold_right Z.mul 1 a).
Proof.
  revert acc. induction a as [|x a IH]; intros acc; cbn [fold_left fold_right].
  - now rewrite Z.mul_1_r.
  - rewrite wrap_int64_mul_l, IH. f_equal. ring.
Qed.

(** [numpy.prod] is the exact product, wrapped once. *)
Lemma prod_exact (a : list Z) : prod a = wrap_int64 (fold_right Z.mul 1 a).
Proof.
  unfold prod. change 1 with (wrap_int64 1) at 1.
  rewrite fold_wrap. f_equal. ring.
Qed.

Lemma product_permutation (a b : list Z) :
  Permutation a b -> fold_right Z.mul 1 a = fold_right Z.mul 1 b.
Proof.
  induction 1; cbn [fold_right]; try congruence; ring.
Qed.

(** X1. [index_number_to_coordinate] returns a coordinate exactly for the
    row-major numbering of the lattice cells: (row, col) is returned for
    [index] if and only if the cell lies in the lattice and
    index = (row - 1) * cols + col. *)
Theorem index_number_to_coordinate_row_major (index rows cols row col : Z) :
  index_number_to_coordinate index (rows, cols) = Ok (row, col) <->
  1 <= row <= rows /\ 1 <= col <= cols /\ index = (row - 1) * cols + col.
Proof.
  unfold index_number_to_coordinate; cbn [snd]. split.
  - destruct (index <? 1) eqn:E1; [discriminate|].
    destruct (rows <? 1) eqn:E2; [discriminate|].
    destruct (cols <? 1) eqn:E3; [discriminate|]. cbn [orb].
    apply Z.ltb_ge in E1, E2, E3.
    destruct ((index - 1) / cols + 1 >? rows) eqn:E4; [discriminate|].
    destruct ((index - 1) mod cols + 1 >? cols) eqn:E5; [discriminate|].
    cbn [orb]. intros [= <- <-].
    rewrite Z.gtb_ltb in E4, E5. apply Z.ltb_ge in E4, E5.
    pose proof (Z.mod_pos_bound (index - 1) cols ltac:(lia)).
    pose proof (Z.div_mod (index - 1) cols ltac:(lia)).
    assert (0 <= (index - 1) / cols) by (apply Z.div_pos; lia).
    repeat split; lia.
  - intros ((Hr1 & Hr2) & (Hc1 & Hc2) & ->).
    assert (Hdiv : ((row - 1) * cols + col - 1) / cols = row - 1).
    { symmetry. apply (Z.div_unique _ _ _ (col - 1)); lia. }
    assert (Hmod : ((row - 1) * cols + col - 1) mod cols = col - 1).
    { symmetry. apply (Z.mod_unique _ _ (row - 1)); lia. }
    rewrite Hdiv, Hmod.
    replace ((row - 1) * cols + col <? 1) with false
      by (symmetry; apply Z.ltb_ge; nia).
    replace (rows <? 1) with false by (symmetry; apply Z.ltb_ge; lia).
    replace (cols <? 1) with false by (symmetry; apply Z.ltb_ge; lia).
    cbn [orb].
    replace (row - 1 + 1 >? rows) with false
      by (symmetry; rewrite Z.gtb_ltb; apply Z.ltb_ge; lia).
    replace (col - 1 + 1 >? cols) with false
      by (symmetry; rewrite Z.gtb_ltb; apply Z.ltb_ge; lia).
    cbn [orb]. f_equal. f_equal; lia.
Qed.

Lemma index_number_to_coordinate_row_major_witness :
  index_number_to_coordinate 7 (3, 4) = Ok (2, 3) /\
  (1 <= 2 <= 3 /\ 1 <= 3 <= 4 /\ 7 = (2 - 1) * 4 + 3).
Proof.
  assert (H : 1 <= 2 <= 3 /\ 1 <= 3 <= 4 /\ 7 = (2 - 1) * 4 + 3) by lia.
  split; [|exact H].
  apply (proj2 (index_number_to_coordinate_row_major 7 3 4 2 3) H).
Defined.

(** X2. [coordinate_to_index_number] does not undo
    [index_number_to_coordinate]: on a lattice whose cell count fits the
    platform integer, the product of the returned coordinate is the index
    again exactly for the cells of the first row and of the last column. *)
Theorem coordinate_to_index_number_round_trip (index rows cols row col : Z) :
  rows * cols < 2 ^ 63 ->
  index_number_to_coordinate index (rows, cols) = Ok (row, col) ->
  (coordinate_to_index_number [row; col] = index <-> row = 1 \/ col = cols).
Proof.
  intros Hfit Hok.
  apply index_number_to_coordinate_row_major in Hok
    as ((Hr1 & Hr2) & (Hc1 & Hc2) & ->).
  unfold coordinate_to_index_number. rewrite prod_exact. cbn [fold_right].
  rewrite wrap_int64_small by nia.
  split; intros H; nia.
Qed.

Lemma coordinate_to_index_number_round_trip_witness :
  3 * 4 < 2 ^ 63 /\
  index_number_to_coordinate 7 (3, 4) = Ok (2, 3) /\
  coordinate_to_index_number [2; 3] <> 7 /\
  index_number_to_coordinate 8 (3, 4) = Ok (2, 4) /\
  coordinate_to_index_number [2; 4] = 8.
Proof.
  split; [lia|]. split; [reflexivity|]. split; [|split; [reflexivity|]].
  - intros H.
    apply (proj1 (coordinate_to_index_number_round_trip 7 3 4 2 3
                    ltac:(lia) eq_refl)) in H.
    lia.
  - apply (proj2 (coordinate_to_index_number_round_trip 8 3 4 2 4
                    ltac:(lia) eq_refl)).
    right; reflexivity.
Defined.

(** X3. [coordinate_to_index_number] does not depend on the order of the
    coordinate: the cells (row, col) and (col, row) get the same number. *)
Theorem coordinate_to_index_number_permutation (a b : list Z) :
  Permutation a b ->
  coordinate_to_index_number a = coordinate_to_index_number b.
Proof.
  intros H. unfold coordinate_to_index_number.
  rewrite !prod_exact. f_equal. now apply product_permutation.
Qed.

Lemma coordinate_to_index_number_permutation_witness :
  Permutation [2; 3] [3; 2] /\
  coordinate_to_index_number [2; 3] = coordinate_to_index_number [3; 2].
Proof.
  assert (H : Permutation [2; 3] [3; 2]) by apply perm_swap.
  split; [exact H|].
  apply (coordinate_to_index_number_permutation [2; 3] [3; 2] H).
Defined.

End LatticeTheorems.

(** ** Lemmas: counters *)

Module CounterFacts.
Import Collections.

Section Lookup.

Variable K : Type.
Variable K_eq_dec : forall x y : K, {x = y} + {x <> y}.
Variable V : Type.

Lemma get_None (d : dict K V) (k : K) :
  get K K_eq_dec V d k = None <-> ~ In k (keys K V d).
Proof.
  induction d as [|[k' v] d IH]; cbn.
  - tauto.
  - destruct (K_eq_dec k k') as [->|Hne].
    + split; [discriminate | tauto].
    + rewrite IH. split; intros H; [intros [E|E]; [congruence | tauto] | tauto].
Qed.

Lemma get_Some_In (d : dict K V) (k : K) (v : V) :
  get K K_eq_dec V d k = Some v -> In k (keys K V d).
Proof.
  intros H. destruct (in_dec K_eq_dec k (keys K V d)) as [Hin|Hout]; [exact Hin|].
  apply get_None in Hout. congruence.
Qed.

Lemma In_get_Some (d : dict K V) (k : K) :
  In k (keys K V d) -> exists v, get K K_eq_dec V d k = Some v.
Proof.
  intros Hin. destruct (get K K_eq_dec V d k) as [v|] eqn:E; [eauto|].
  apply get_None in E. contradiction.
Qed.

Lemma count_missing (zero : V) (c : dict K V) (k : K) :
  ~ In k (keys K V c) -> count K K_eq_dec V zero c k = zero.
Proof. intros H. unfold count. now rewrite (proj2 (get_None c k) H). Qed.

Lemma count_cons (zero : V) (c : dict K V) (k k0 : K) (v0 : V) :
  count K K_eq_dec V zero ((k0, v0) :: c) k
  = if K_eq_dec k k0 then v0 else count K K_eq_dec V zero c k.
Proof. unfold count. cbn [get]. now destruct (K_eq_dec k k0). Qed.

End Lookup.

Section Generic.

Variable K : Type.
Variable K_eq_dec : forall x y : K, {x = y} + {x <> y}.
Variable V : Type.
Variable zero : V.
Variable add : V -> V -> V.

Lemma In_keys_accumulate (c : dict K V) (k k' : K) (v : V) :
  In k' (keys K V (accumulate K K_eq_dec V zero add c k v)) <->
  In k' (keys K V c) \/ k' = k.
Proof.
  induction c as [|[k0 v0] c IH]; cbn.
  - intuition congruence.
  - destruct (K_eq_dec k k0) as [->|Hne]; cbn.
    + intuition congruence.
    + unfold keys in IH. rewrite IH. tauto.
Qed.

Lemma NoDup_accumulate (c : dict K V) (k : K) (v : V) :
  NoDup (keys K V c) ->
  NoDup (keys K V (accumulate K K_eq_dec V zero add c k v)).
Proof.
  induction c as [|[k0 v0] c IH]; cbn; intros Hnd.
  - constructor; [tauto | constructor].
  - inversion Hnd as [|? ? Hout Hrest]; subst.
    destruct (K_eq_dec k k0) as [->|Hne]; cbn.
    + constructor; assumption.
    + constructor; [|now apply IH].
      intros Hin. apply In_keys_accumulate in Hin as [Hin| ->];
        [contradiction | congruence].
Qed.

Lemma count_accumulate_same (c : dict K V) (k : K) (v : V) :
  count K K_eq_dec V zero (accumulate K K_eq_dec V zero add c k v) k
  = add v (count K K_eq_dec V zero c k).
Proof.
  unfold count. induction c as [|[k0 v0] c IH]; cbn.
  - destruct (K_eq_dec k k); [reflexivity | congruence].
  - destruct (K_eq_dec k k0) as [->|Hne]; cbn.
    + destruct (K_eq_dec k0 k0); [reflexivity | congruence].
    + destruct (K_eq_dec k k0); [congruence | exact IH].
Qed.

Lemma count_accumulate_other (c : dict K V) (k k' : K) (v : V) :
  k' <> k ->
  count K K_eq_dec V zero (accumulate K K_eq_dec V zero add c k v) k'
  = count K K_eq_dec V zero c k'.
Proof.
  intros Hne. unfold count. induction c as [|[k0 v0] c IH]; cbn.
  - destruct (K_eq_dec k' k); [congruence | reflexivity].
  - destruct (K_eq_dec k k0) as [->|Hk]; cbn.
    + destruct (K_eq_dec k' k0); [congruence | reflexivity].
    + destruct (K_eq_dec k' k0); [reflexivity | exact IH].
Qed.

(** Adding the items of a mapping key by key. *)
Lemma fold_accumulate_keys (m c : dict K V) (k : K) :
  In k (keys K V (fold_left (fun c item =>
          accumulate K K_eq_dec V zero add c (fst item) (snd item)) m c)) <->
  In k (keys K V c) \/ In k (keys K V m).
Proof.
  revert c. induction m as [|[k0 v0] m IH]; intros c; cbn [fold_left].
  - cbn. tauto.
  - rewrite IH, In_keys_accumulate. cbn. intuition congruence.
Qed.

Lemma fold_accumulate_NoDup (m c : dict K V) :
  NoDup (keys K V c) ->
  NoDup (keys K V (fold_left (fun c item =>
          accumulate K K_eq_dec V zero add c (fst item) (snd item)) m c)).
Proof.
  revert c. induction m as [|[k0 v0] m IH]; intros c Hnd; cbn [fold_left].
  - exact Hnd.
  - apply IH, NoDup_accumulate, Hnd.
Qed.

End Generic.

End CounterFacts.

(** ** Theorems: [average_dicts_values_by_key] *)

Module AverageTheorems.
Import Py PyFacts Collections CounterFacts UtilitiesRest UtilityNotions.
Local Open Scope R_scope.

Section Keyed.

Variable K : Type.
Variable K_eq_dec : forall x y : K, {x = y} + {x <> y}.

Abbreviation sum_of := (count K K_eq_dec R 0).
Abbreviation times_of := (count K K_eq_dec Z 0%Z).
Abbreviation add_items :=
  (fold_left (fun c item =>
     accumulate K K_eq_dec R 0 Rplus c (@fst K R item) (snd item))).

Lemma fold_accumulate_sum (m c : dict K R) (k : K) :
  NoDup (keys K R m) ->
  sum_of (add_items m c) k = sum_of c k + sum_of m k.
Proof.
  revert c. induction m as [|[k0 v0] m IH]; intros c Hnd; cbn [fold_left].
  - change (sum_of [] k) with 0. lra.
  - inversion Hnd as [|? ? Hout Hrest]; subst. rewrite (IH _ Hrest).
    cbn [fst snd]. rewrite (count_cons K K_eq_dec R 0 m k k0 v0).
    destruct (K_eq_dec k k0) as [->|Hne].
    + rewrite count_accumulate_same, (count_missing _ _ _ _ m k0 Hout). lra.
    + rewrite count_accumulate_other by exact Hne. lra.
Qed.

Lemma update_mapping_sum (s m : dict K R) (k : K) :
  NoDup (keys K R m) ->
  sum_of (update_mapping K K_eq_dec R 0 Rplus s m) k = sum_of s k + sum_of m k.
Proof.
  intros Hnd. destruct s as [|item s].
  - cbn [update_mapping]. change (sum_of [] k) with 0. lra.
  - apply (fold_accumulate_sum m (item :: s) k Hnd).
Qed.

Lemma update_mapping_keys (s m : dict K R) (k : K) :
  In k (keys K R (update_mapping K K_eq_dec R 0 Rplus s m)) <->
  In k (keys K R s) \/ In k (keys K R m).
Proof.
  destruct s as [|item s].
  - cbn. tauto.
  - apply fold_accumulate_keys.
Qed.

Lemma update_mapping_NoDup (s m : dict K R) :
  NoDup (keys K R s) -> NoDup (keys K R m) ->
  NoDup (keys K R (update_mapping K K_eq_dec R 0 Rplus s m)).
Proof.
  intros Hs Hm. destruct s as [|item s]; [exact Hm|].
  now apply fold_accumulate_NoDup.
Qed.

Lemma update_elements_times (ks : list K) (c : dict K Z) (k : K) :
  NoDup ks ->
  times_of (update_elements K_eq_dec c ks) k
  = (times_of c k + if in_dec K_eq_dec k ks then 1 else 0)%Z.
Proof.
  unfold update_elements. revert c.
  induction ks as [|k0 ks IH]; intros c Hnd; cbn [fold_left].
  - cbn. lia.
  - inversion Hnd as [|? ? Hout Hrest]; subst. rewrite (IH _ Hrest).
    destruct (K_eq_dec k k0) as [->|Hne].
    + rewrite count_accumulate_same.
      destruct (in_dec K_eq_dec k0 ks); [contradiction|].
      destruct (in_dec K_eq_dec k0 (k0 :: ks)) as [_|Hno]; [lia|].
      exfalso. apply Hno. now left.
    + rewrite count_accumulate_other by exact Hne.
      destruct (in_dec K_eq_dec k ks) as [Hin|Hno];
        destruct (in_dec K_eq_dec k (k0 :: ks)) as [Hin'|Hno']; try lia.
      * exfalso. apply Hno'. now right.
      * destruct Hin' as [E|E]; [congruence | contradiction].
Qed.

Lemma sum_of_get (d : dict K R) (k : K) :
  sum_of d k = match get K K_eq_dec R d k with Some v => v | None => 0 end.
Proof. reflexivity. Qed.

(** The two counters after the loop. *)
Lemma tally_spec (dicts : list (dict K R)) :
  well_formed K dicts ->
  forall (sums : dict K R) (counters : dict K Z),
    NoDup (keys K R sums) ->
    NoDup (keys K R (fst (tally K K_eq_dec dicts sums counters))) /\
    (forall k,
       In k (keys K R (fst (tally K K_eq_dec dicts sums counters))) <->
       In k (keys K R sums) \/ exists d, In d dicts /\ In k (keys K R d)) /\
    (forall k,
       sum_of (fst (tally K K_eq_dec dicts sums counters)) k
       = sum_of sums k + key_total K K_eq_dec dicts k) /\
    (forall k,
       times_of (snd (tally K K_eq_dec dicts sums counters)) k
       = (times_of counters k + key_occurrences K K_eq_dec dicts k)%Z).
Proof.
  induction dicts as [|d dicts IH]; intros Hwf sums counters Hnd.
  - cbn. split; [exact Hnd|]. split; [|split]; intros k.
    + split; [tauto|]. intros [H|(d & [] & _)]. exact H.
    + lra.
    + lia.
  - inversion Hwf as [|? ? Hd Hrest]; subst.
    change (tally K K_eq_dec (d :: dicts) sums counters)
      with (tally K K_eq_dec dicts
              (update_mapping K K_eq_dec R 0 Rplus sums d)
              (update_elements K_eq_dec counters (keys K R d))).
    destruct (IH Hrest (update_mapping K K_eq_dec R 0 Rplus sums d)
                (update_elements K_eq_dec counters (keys K R d))
                (update_mapping_NoDup _ _ Hnd Hd)) as (I1 & I2 & I3 & I4).
    split; [exact I1|]. split; [|split].
    + intros k. rewrite I2, update_mapping_keys. split.
      * intros [[H|H]|(d' & Hin & H)]; [tauto | right | right].
        -- exists d. split; [now left | exact H].
        -- exists d'. split; [now right | exact H].
      * intros [H|(d' & [<-|Hin] & H)]; [tauto | tauto |].
        right. exists d'. tauto.
    + intros k. rewrite I3, update_mapping_sum by exact Hd.
      rewrite (sum_of_get d k). cbn [key_total].
      destruct (get K K_eq_dec R d k); lra.
    + intros k. rewrite I4, update_elements_times by exact Hd.
      cbn [key_occurrences].
      destruct (in_dec K_eq_dec k (keys K R d)) as [Hin|Hout].
      * destruct (In_get_Some K K_eq_dec R d k Hin) as (v & ->). lia.
      * rewrite (proj2 (get_None K K_eq_dec R d k) Hout). lia.
Qed.

Lemma key_occurrences_nonneg (dicts : list (dict K R)) (k : K) :
  (0 <= key_occurrences K K_eq_dec dicts k)%Z.
Proof.
  induction dicts as [|d dicts IH]; cbn [key_occurrences]; [lia|].
  destruct (get K K_eq_dec R d k); lia.
Qed.

Lemma key_occurrences_pos (dicts : list (dict K R)) (d : dict K R) (k : K) :
  In d dicts -> In k (keys K R d) ->
  (1 <= key_occurrences K K_eq_dec dicts k)%Z.
Proof.
  intros Hd Hk. induction dicts as [|d' dicts IH]; [contradiction|].
  cbn [key_occurrences]. pose proof (key_occurrences_nonneg dicts k).
  destruct Hd as [->|Hd].
  - destruct (In_get_Some K K_eq_dec R d k Hk) as (v & ->). lia.
  - specialize (IH Hd). destruct (get K K_eq_dec R d' k); lia.
Qed.

Lemma comprehension_map (f : K -> result R) (g : K -> R) (xs : list K) :
  (forall x, In x xs -> f x = Ok (g x)) ->
  comprehension K f xs = Ok (map (fun x => (x, g x)) xs).
Proof.
  induction xs as [|x xs IH]; intros H; cbn; [reflexivity|].
  rewrite (H x (or_introl eq_refl)). cbn [bind].
  rewrite IH by (intros; apply H; now right). reflexivity.
Qed.

Lemma get_map (g : K -> R) (xs : list K) (k : K) :
  In k xs -> get K K_eq_dec R (map (fun x => (x, g x)) xs) k = Some (g k).
Proof.
  induction xs as [|x xs IH]; [contradiction|]. cbn.
  destruct (K_eq_dec k x) as [->|Hne]; [reflexivity|].
  intros [E|Hin]; [congruence | auto].
Qed.

Lemma keys_map (g : K -> R) (xs : list K) :
  keys K R (map (fun x => (x, g x)) xs) = xs.
Proof. unfold keys. rewrite map_map. cbn. apply map_id. Qed.

(** The function in closed form. *)
Lemma average_closed_form (dicts : list (dict K R)) :
  well_formed K dicts ->
  exists ks,
    NoDup ks /\
    (forall k, In k ks <-> exists d, In d dicts /\ In k (keys K R d)) /\
    average_dicts_values_by_key K K_eq_dec dicts
    = Ok (map (fun k => (k, key_total K K_eq_dec dicts k
                            / IZR (key_occurrences K K_eq_dec dicts k))) ks).
Proof.
  intros Hwf.
  destruct (tally_spec dicts Hwf [] [] (NoDup_nil K)) as (I1 & I2 & I3 & I4).
  unfold average_dicts_values_by_key.
  destruct (tally K K_eq_dec dicts [] []) as [sums counters] eqn:Et.
  cbn [fst snd] in *.
  exists (keys K R sums). split; [exact I1|]. split.
  - intros k. rewrite I2. cbn. tauto.
  - apply comprehension_map. intros x Hx.
    apply I2 in Hx as [[]|(d & Hd & Hk)].
    rewrite I3, I4.
    change (sum_of [] x) with 0. change (times_of [] x) with 0%Z.
    replace (0 + key_total K K_eq_dec dicts x)
      with (key_total K K_eq_dec dicts x) by lra.
    rewrite Z.add_0_l. unfold truediv.
    pose proof (key_occurrences_pos dicts d x Hd Hk) as Hpos.
    destruct (Req_dec_T _ 0) as [E|_]; [|reflexivity].
    apply eq_IZR_R0 in E. lia.
Qed.

(** X4. On dicts that hold each key once, [average_dicts_values_by_key]
    never raises ZeroDivisionError: every key of the sums has been counted
    at least once.  The dict it returns has as keys, each once, exactly
    the keys that occur in some input dict. *)
Theorem average_dicts_values_by_key_defined (dicts : list (dict K R)) :
  well_formed K dicts ->
  average_dicts_values_by_key K K_eq_dec dicts <> Raise ZeroDivisionError /\
  (forall k, (exists d, In d dicts /\ In k (keys K R d)) ->
             (1 <= key_occurrences K K_eq_dec dicts k)%Z) /\
  (forall averages,
     average_dicts_values_by_key K K_eq_dec dicts = Ok averages ->
     NoDup (keys K R averages) /\
     (forall k, In k (keys K R averages) <->
                exists d, In d dicts /\ In k (keys K R d))).
Proof.
  intros Hwf. destruct (average_closed_form dicts Hwf) as (ks & Hnd & Hks & ->).
  split; [discriminate|]. split.
  - intros k (d & Hd & Hk). exact (key_occurrences_pos dicts d k Hd Hk).
  - intros averages [= <-]. rewrite keys_map. auto.
Qed.

(** X5. The value returned for a key is the sum of the values the input
    dicts hold for it, divided by the number of dicts that hold it. *)
Theorem average_dicts_values_by_key_value (dicts : list (dict K R))
    (averages : dict K R) (k : K) (v : R) :
  well_formed K dicts ->
  average_dicts_values_by_key K K_eq_dec dicts = Ok averages ->
  get K K_eq_dec R averages k = Some v ->
  (1 <= key_occurrences K K_eq_dec dicts k)%Z /\
  v = key_total K K_eq_dec dicts k / IZR (key_occurrences K K_eq_dec dicts k).
Proof.
  intros Hwf Havg Hget.
  destruct (average_closed_form dicts Hwf) as (ks & Hnd & Hks & Heq).
  rewrite Heq in Havg. injection Havg as <-.
  pose proof (get_Some_In _ _ _ _ _ _ Hget) as Hin. rewrite keys_map in Hin.
  rewrite (get_map _ ks k Hin) in Hget. injection Hget as <-.
  split; [|reflexivity].
  apply Hks in Hin as (d & Hd & Hk). exact (key_occurrences_pos dicts d k Hd Hk).
Qed.

End Keyed.

Lemma scans_well_formed : well_formed Z [first_scan; second_scan].
Proof.
  repeat constructor; cbn; intuition lia.
Qed.

Lemma average_scans :
  average_dicts_values_by_key Z Z.eq_dec [first_scan; second_scan]
  = Ok [(1%Z, 2); (2%Z, 5); (3%Z, 1)].
Proof.
  unfold average_dicts_values_by_key, tally, first_scan, second_scan.
  cbn. unfold truediv.
  repeat match goal with
  | |- context [Req_dec_T ?a 0] => destruct (Req_dec_T a 0); [lra|]
  end.
  cbn. repeat f_equal; lra.
Qed.

Lemma average_dicts_values_by_key_defined_witness :
  well_formed Z [first_scan; second_scan] /\
  average_dicts_values_by_key Z Z.eq_dec [first_scan; second_scan]
    = Ok [(1%Z, 2); (2%Z, 5); (3%Z, 1)] /\
  In 3%Z (keys Z R [(1%Z, 2); (2%Z, 5); (3%Z, 1)]) /\
  exists d, In d [first_scan; second_scan] /\ In 3%Z (keys Z R d).
Proof.
  split; [exact scans_well_formed|]. split; [exact average_scans|].
  split; [right; right; left; reflexivity|].
  apply (proj2 (proj2 (proj2 (average_dicts_values_by_key_defined Z Z.eq_dec
                                [first_scan; second_scan] scans_well_formed))
                      _ average_scans) 3%Z).
  right; right; left; reflexivity.
Defined.

Lemma average_dicts_values_by_key_value_witness :
  well_formed Z [first_scan; second_scan] /\
  average_dicts_values_by_key Z Z.eq_dec [first_scan; second_scan]
    = Ok [(1%Z, 2); (2%Z, 5); (3%Z, 1)] /\
  get Z Z.eq_dec R [(1%Z, 2); (2%Z, 5); (3%Z, 1)] 2%Z = Some 5 /\
  5 = key_total Z Z.eq_dec [first_scan; second_scan] 2%Z
      / IZR (key_occurrences Z Z.eq_dec [first_scan; second_scan] 2%Z).
Proof.
  split; [exact scans_well_formed|]. split; [exact average_scans|].
  split; [reflexivity|].
  apply (average_dicts_values_by_key_value Z Z.eq_dec
           [first_scan; second_scan] _ 2%Z 5
           scans_well_formed average_scans eq_refl).
Defined.

End AverageTheorems.

(** ** More theorems: [estimate_parameters] *)

Module EstimateMore.
Import Py PyFacts Notions GrowthCurve EstimateFacts EstimateTheorems Samples.
Local Open Scope R_scope.

Lemma in_band_iff (low high m : R) :
  Rleb low m && Rleb m high = true <-> low <= m <= high.
Proof.
  rewrite andb_true_iff, !Rleb_true. tauto.
Qed.

(** With a measurement inside the band, the loop returns the first one. *)
Lemma first_in_band_first (low high : R) (ms : list R) (default : R) :
  (exists m, In m ms /\ low <= m <= high) ->
  exists before after,
    ms = before ++ first_in_band low high ms default :: after /\
    low <= first_in_band low high ms default <= high /\
    Forall (fun m => ~ (low <= m <= high)) before.
Proof.
  induction ms as [|m0 ms IH]; intros (m & Hin & Hband); [contradiction|].
  cbn [first_in_band].
  destruct (Rleb low m0 && Rleb m0 high) eqn:E.
  - apply in_band_iff in E. exists [], ms. repeat split; try tauto. constructor.
  - assert (Hout : ~ (low <= m0 <= high)).
    { intros H. apply in_band_iff in H. congruence. }
    destruct Hin as [->|Hin]; [contradiction|].
    destruct (IH (ex_intro _ m (conj Hin Hband))) as (before & after & Heq & Hb & Hall).
    exists (m0 :: before), after. split; [cbn; now rewrite <- Heq|].
    split; [exact Hb|]. constructor; assumption.
Qed.

Lemma std_nonneg (a : list R) : 0 <= Np.std a.
Proof. apply sqrt_pos. Qed.

Lemma last_In (l : list R) (d : R) : l <> [] -> In (last l d) l.
Proof.
  intros Hl. destruct (exists_last Hl) as (l' & a & ->).
  rewrite last_last. apply in_or_app. right. now left.
Qed.

(** The third component of the estimate. *)
Lemma estimate_carrying_capacity (ts ms : list R) (lag gr cc : R) :
  length ts = length ms -> ms <> [] ->
  estimate_parameters ts ms = Ok (lag, gr, cc) ->
  cc = match Np.diff ms with
       | [] => last ms 0
       | _ => first_in_band (last ms 0 - Np.std (Np.diff ms))
                            (last ms 0 + Np.std (Np.diff ms)) ms (last ms 0)
       end.
Proof.
  intros Hlen Hne. unfold estimate_parameters.
  rewrite (len_eqb _ _ Hlen), (getitem_last ms 0 Hne). cbn [bind].
  destruct (inflection_scan _ _ _ _ _) as [[l g]|]; cbn [bind]; [|discriminate].
  intros [= _ _ <-]. reflexivity.
Qed.



(** X9. With one or two measurements no difference can exceed the
    threshold (a single difference is its own mean, with deviation 0):
    lag_time and growth_rate are both 0 and the carrying capacity is the
    last measurement. *)
Theorem estimate_parameters_two_measurements (ts ms : list R) :
  length ts = length ms -> (1 <= length ms <= 2)%nat ->
  estimate_parameters ts ms = Ok (0, 0, last ms 0).
Proof.
  intros Hlen Hsmall.
  assert (Hne : ms <> []) by (destruct ms; [cbn in Hsmall; lia | discriminate]).
  destruct (estimate_parameters_defined ts ms Hlen Hne) as (cc & H).
  assert (Hnone : first_exceeding (Np.mean (Np.diff ms) + Np.std (Np.diff ms))
                                  (Np.diff ms) = None).
  { destruct ms as [|m1 [|m2 [|m3 ms]]]; cbn in Hsmall; try lia.
    - reflexivity.
    - apply first_exceeding_singleton. }
  rewrite Hnone in H. rewrite H. do 2 f_equal.
  rewrite (estimate_carrying_capacity ts ms 0 0 cc Hlen Hne H).
  destruct ms as [|m1 [|m2 [|m3 ms]]]; cbn in Hsmall; try lia.
  - reflexivity.
  - cbn [Np.diff last]. rewrite std_singleton. cbn [first_in_band].
    destruct (Rleb (m2 - 0) m1 && Rleb m1 (m2 + 0)) eqn:E.
    + apply in_band_iff in E. lra.
    + replace (Rleb (m2 - 0) m2) with true by (symmetry; apply Rleb_true; lra).
      replace (Rleb m2 (m2 + 0)) with true by (symmetry; apply Rleb_true; lra).
      reflexivity.
Qed.

Lemma estimate_parameters_two_measurements_witness :
  length [10; 20] = length [3; 9] /\
  (1 <= length [3; 9] <= 2)%nat /\
  estimate_parameters [10; 20] [3; 9] = Ok (0, 0, 9).
Proof.
  split; [reflexivity|]. split; [cbn; lia|].
  apply (estimate_parameters_two_measurements [10; 20] [3; 9] eq_refl).
  cbn. lia.
Defined.


Lemma early_rise_first_above :
  first_above (Np.mean (Np.diff early_rise) + Np.std (Np.diff early_rise))
              (Np.diff early_rise) 0.
Proof. apply first_exceeding_Some, early_rise_first. Qed.


End EstimateMore.

(** ** More theorems: [gompertz] *)

Module GompertzMore.
Import Py PyFacts Notions GrowthCurve FloatFacts GompertzTheorems.
Local Open Scope R_scope.

Lemma exp_le_1 (x : R) : x <= 0 -> 0 < exp x <= 1.
Proof.
  intros Hx. split; [apply exp_pos|].
  destruct Hx as [Hx| ->]; [|rewrite exp_0; lra].
  pose proof (exp_increasing _ _ Hx) as H0. rewrite exp_0 in H0. lra.
Qed.


(** Without the hypotheses on the range the formula does not hold: with
    the largest double as growth_rate and as carrying_capacity the product
    growth_rate * e overflows, and the result is nan although the final
    exponential would be exp(-1). *)
Lemma gompertz_product_overflow :
  in_range (exp (- exponent 0 0 float_max float_max)) /\
  gompertz (Finite 0) (Finite 0) (Finite 0) (Finite float_max)
    (Finite float_max) = Ok NaN.
Proof.
  pose proof e_gt_2 as He. pose proof float_max_ge_1 as Hmax.
  split.
  - unfold exponent.
    replace (float_max * e / float_max * (0 - 0) + 1) with 1 by (field; lra).
    pose proof (exp_le_1 (- (1)) ltac:(lra)).
    apply in_range_small, Rabs_le. lra.
  - unfold gompertz. cbn [fmul fdiv].
    rewrite (of_real_above (float_max * e)) by nra.
    rewrite (is_zero_false float_max) by lra.
    rewrite (proj2 (Rltb_false float_max 0)) by lra. cbn [bind fsub xorb].
    replace (0 - 0) with 0 by lra.
    rewrite (of_real_in_range 0) by (apply in_range_small, Rabs_le; lra).
    cbn [fmul]. rewrite is_zero_true. reflexivity.
Qed.

Lemma exponent_early : exponent 5 7 1 2 = e + 1.
Proof. unfold exponent. field. Qed.


End GompertzMore.

(** ** More theorems: fitting *)

Module FitMore.
Import Py PyFacts Notions GrowthCurve EstimateFacts EstimateTheorems.
Import FloatFacts FitTheorems Samples.
Local Open Scope R_scope.

Section WithOptimizer.

Variable covariance : Type.
Variable curve_fit :
  curve -> list R -> list R -> list R -> result (list float * covariance).

Abbreviation fit := (fit_growth_curve covariance curve_fit).

(** The fit after the optimizer has converged. *)
Lemma fit_converged (self : instance) (init : option (list R))
    (ts ms p0 : list R) (y0 l g c : float) (conf : covariance) :
  fit_arguments self init = Ok (ts, ms, p0) ->
  curve_fit gompertz ts ms p0 = Ok ([y0; l; g; c], conf) ->
  fit self init =
  (lag <- timedelta_seconds l ;;
   Ok {| __doubling_time := __doubling_time self;
         __growth_rate := Some g;
         __carrying_capacity := Some c;
         __lag_time := Some lag;
         growth_curve_data := growth_curve_data self;
         fit_calls := S (fit_calls self) |}).
Proof.
  intros Hargs Hfit.
  rewrite (fit_growth_curve_split covariance curve_fit), Hargs. cbn [bind].
  unfold __fit_curve. rewrite Hfit. reflexivity.
Qed.

(** X15. When the optimizer converges on the arguments the fit hands it,
    the instance takes growth_rate and carrying_capacity from the third and
    fourth optimal parameter and lag_time from the second, as a duration to
    the microsecond; the fitted initial size and the covariance are
    dropped, the data and the doubling-time slot are left as they were.
    That holds for a lag time of up to 999999999 days in magnitude.  A lag
    time that no timedelta can hold makes the fit raise instead, before
    anything is stored: OverflowError from 1000000000 days on and at an
    infinity, ValueError at nan. *)
Theorem fit_growth_curve_converged (self : instance) (init : option (list R))
    (ts ms p0 : list R) (y0 l g c : float) (conf : covariance) :
  fit_arguments self init = Ok (ts, ms, p0) ->
  curve_fit gompertz ts ms p0 = Ok ([y0; l; g; c], conf) ->
  (forall s, l = Finite s -> Rabs s <= days 999999999 ->
     fit self init =
     Ok {| __doubling_time := __doubling_time self;
           __growth_rate := Some g;
           __carrying_capacity := Some c;
           __lag_time := Some {| total_microseconds := microseconds_of s |};
           growth_curve_data := growth_curve_data self;
           fit_calls := S (fit_calls self) |}) /\
  (forall s, l = Finite s -> days 1000000000 <= Rabs s ->
     fit self init = Raise OverflowError) /\
  (forall negative, l = Infinity negative ->
     fit self init = Raise OverflowError) /\
  (l = NaN -> fit self init = Raise ValueError).
Proof.
  intros Hargs Hfit.
  rewrite (fit_converged self init ts ms p0 y0 l g c conf Hargs Hfit).
  refine (conj _ (conj _ (conj _ _))).
  - intros s -> Hs.
    now rewrite (proj1 (timedelta_seconds_finite s) (representable_within s Hs)).
  - intros s -> Hs.
    now rewrite (proj2 (timedelta_seconds_finite s)
                   (not_representable_beyond s Hs)).
  - intros negative ->. reflexivity.
  - intros ->. reflexivity.
Qed.

(** A fit that raises makes every property of an untouched instance raise
    the same exception. *)
Lemma properties_raise (self : instance) (e : exn) :
  unfitted self ->
  fit self None = Raise e ->
  lag_time covariance curve_fit self = Raise e /\
  growth_rate covariance curve_fit self = Raise e /\
  carrying_capacity covariance curve_fit self = Raise e /\
  doubling_time covariance curve_fit self = Raise e.
Proof.
  intros (Hl & Hg & Hc) Hfit.
  unfold doubling_time, lag_time, growth_rate, carrying_capacity.
  rewrite Hl, Hg, Hc, Hfit. cbn [bind]. auto.
Qed.

Lemma fit_raises (self : instance) (init : option (list R))
    (ts ms p0 : list R) (e : exn) :
  fit_arguments self init = Ok (ts, ms, p0) ->
  curve_fit gompertz ts ms p0 = Raise e ->
  e <> RuntimeError ->
  fit self init = Raise e.
Proof.
  intros Hargs Hfit He.
  rewrite (fit_growth_curve_split covariance curve_fit), Hargs. cbn [bind].
  unfold __fit_curve. rewrite Hfit. cbn [bind try_except].
  destruct e; cbn; try reflexivity. congruence.
Qed.


Lemma fit_empty (self : instance) (init : option (list R)) :
  growth_curve_data self = [] -> fit self init = Raise IndexError.
Proof.
  intros Hdata. unfold fit_growth_curve. rewrite Hdata. reflexivity.
Qed.

(** X17. Without any observation [fit_growth_curve] raises IndexError,
    whatever the optimizer and the initial parameters, and so does every
    property read on an untouched instance. *)
Theorem fit_growth_curve_empty (self : instance) (init : option (list R)) :
  growth_curve_data self = [] ->
  fit self init = Raise IndexError /\
  (unfitted self ->
   lag_time covariance curve_fit self = Raise IndexError /\
   growth_rate covariance curve_fit self = Raise IndexError /\
   carrying_capacity covariance curve_fit self = Raise IndexError /\
   doubling_time covariance curve_fit self = Raise IndexError).
Proof.
  intros Hdata. split; [now apply fit_empty|].
  intros Hun. apply properties_raise; [exact Hun | now apply fit_empty].
Qed.

(** A duration derived from a growth rate is never negative, and zero when
    the rate is not above zero. *)
Lemma doubling_of_nonnegative (rate : float) (d : timedelta) :
  doubling_of rate = Ok d ->
  (0 <= total_microseconds d)%Z /\
  (fgtb rate (Finite 0) = false -> total_microseconds d = 0%Z).
Proof.
  unfold doubling_of.
  destruct (fgtb rate (Finite 0)) eqn:E; cbn [bind].
  - destruct rate as [g|[]|]; cbn in E; try discriminate.
    + apply Rgtb_true in E. cbn [fdiv]. rewrite is_zero_false by lra.
      cbn [bind]. unfold log, of_real.
      destruct (Rltb float_max _); cbn [timedelta_seconds]; [discriminate|].
      destruct (_ >? _)%Z; [discriminate|]. intros [= <-].
      cbn [total_microseconds]. split; [|discriminate].
      apply round_half_even_nonneg.
      pose proof (proj1 ln_2_bounds).
      assert (0 < ln 2 / g) by (apply Rdiv_lt_0_compat; lra). lra.
    + cbn [fdiv bind]. rewrite timedelta_seconds_zero.
      intros [= <-]. cbn. split; [lia | discriminate].
  - rewrite timedelta_seconds_zero. intros [= <-]. cbn. split; [lia | reflexivity].
Qed.

(** X18. The doubling time is never negative: with a growth rate held by
    the instance, a duration that [doubling_time] returns is of at least
    zero seconds, and of zero seconds whenever the growth rate is not above
    zero. *)
Theorem doubling_time_nonnegative (self self' : instance) (rate : float)
    (d : timedelta) :
  __growth_rate self = Some rate ->
  doubling_time covariance curve_fit self = Ok (d, self') ->
  0 <= total_seconds d /\
  (fgtb rate (Finite 0) = false -> total_seconds d = 0).
Proof.
  intros Hg. rewrite (doubling_time_cached covariance curve_fit self rate Hg).
  destruct (doubling_of rate) as [d'|] eqn:E; cbn [bind]; [|discriminate].
  intros [= <- _]. apply doubling_of_nonnegative in E as (Hpos & Hzero).
  unfold total_seconds. split.
  - apply IZR_le in Hpos. lra.
  - intros Hrate. rewrite (Hzero Hrate). lra.
Qed.

(** X19. A first property read on an instance with at least one observation
    whose fit does not converge runs one fit and returns zero: lag_time and
    doubling_time a zero duration, growth_rate and carrying_capacity 0. *)
Theorem properties_without_convergence (self : instance) :
  unfitted self ->
  growth_curve_data self <> [] ->
  (forall ts ms p0,
     fit_arguments self None = Ok (ts, ms, p0) ->
     curve_fit gompertz ts ms p0 = Raise RuntimeError) ->
  exists self',
    fit_calls self' = S (fit_calls self) /\
    lag_time covariance curve_fit self
      = Ok (Some {| total_microseconds := 0 |}, self') /\
    growth_rate covariance curve_fit self = Ok (Some (Finite 0), self') /\
    carrying_capacity covariance curve_fit self = Ok (Some (Finite 0), self') /\
    doubling_time covariance curve_fit self
      = Ok ({| total_microseconds := 0 |}, self').
Proof.
  intros (Hl & Hg & Hc) Hdata Hfail.
  destruct (fit_arguments_defined self None Hdata) as (ts & ms & p0 & Hargs).
  pose proof (fit_no_convergence covariance curve_fit self None ts ms p0
                Hargs (Hfail ts ms p0 Hargs)) as Hfit.
  eexists. split; [|split; [|split; [|split]]].
  2:{ unfold lag_time. rewrite Hl, Hfit. reflexivity. }
  - reflexivity.
  - unfold growth_rate. rewrite Hg, Hfit. reflexivity.
  - unfold carrying_capacity. rewrite Hc, Hfit. reflexivity.
  - unfold doubling_time, growth_rate. rewrite Hg, Hfit.
    cbn [bind __growth_rate gt_zero fgtb].
    rewrite (proj2 (Rgtb_false 0 0) (Rle_refl 0)). cbn [bind].
    now rewrite timedelta_seconds_zero.
Qed.

End WithOptimizer.

Lemma twenty_seconds : Rabs 20 <= days 999999999.
Proof. rewrite Rabs_pos_eq by lra. unfold days. lra. Qed.

Lemma representable_twenty : representable (microseconds_of 20).
Proof. apply representable_within, twenty_seconds. Qed.

Lemma fit_growth_curve_converged_witness :
  fit_arguments (new_instance single_observation) None
    = Ok ([0 / 1000000], [1], [1; 0; 0; 1]) /\
  fit_growth_curve unit Optimizers.converges
    (new_instance single_observation) None
  = Ok {| __doubling_time := None;
          __growth_rate := Some (Finite 2);
          __carrying_capacity := Some (Finite 50);
          __lag_time := Some {| total_microseconds := microseconds_of 20 |};
          growth_curve_data := single_observation;
          fit_calls := 1 |} /\
  fit_growth_curve unit Optimizers.converges_to_nan
    (new_instance single_observation) None
  = Raise ValueError.
Proof.
  split; [exact fit_arguments_single|]. split.
  - apply (proj1 (fit_growth_curve_converged unit Optimizers.converges
                    (new_instance single_observation) None
                    [0 / 1000000] [1] [1; 0; 0; 1]
                    (Finite 1) (Finite 20) (Finite 2) (Finite 50) tt
                    fit_arguments_single eq_refl) 20 eq_refl
                 twenty_seconds).
  - apply (proj2 (proj2 (proj2
             (fit_growth_curve_converged unit Optimizers.converges_to_nan
                (new_instance single_observation) None
                [0 / 1000000] [1] [1; 0; 0; 1]
                (Finite 1) NaN (Finite 2) (Finite 50) tt
                fit_arguments_single eq_refl))) eq_refl).
Defined.


Lemma fit_growth_curve_empty_witness :
  fit_growth_curve unit Optimizers.converges (new_instance []) None
    = Raise IndexError /\
  lag_time unit Optimizers.converges (new_instance []) = Raise IndexError.
Proof.
  destruct (fit_growth_curve_empty unit Optimizers.converges (new_instance [])
              None eq_refl) as (Hfit & Hprops).
  split; [exact Hfit|].
  apply Hprops. repeat split.
Defined.

Lemma doubling_time_growing :
  doubling_time unit never_converges growing
  = Ok ({| total_microseconds := microseconds_of (ln 2 / 2) |}, growing).
Proof.
  rewrite (doubling_time_cached unit never_converges growing (Finite 2) eq_refl).
  assert (Habs : Rabs (ln 2 / 2) <= days 999999999).
  { pose proof doubling_seconds_growing. pose proof ln_2_bounds.
    rewrite Rabs_pos_eq; lra. }
  rewrite (proj1 (proj2 (doubling_of_finite 2)) ltac:(lra)
             (representable_within _ Habs) (days_in_range _ Habs)).
  reflexivity.
Qed.

Lemma doubling_time_nonnegative_witness :
  doubling_time unit never_converges growing
    = Ok ({| total_microseconds := microseconds_of (ln 2 / 2) |}, growing) /\
  0 <= total_seconds {| total_microseconds := microseconds_of (ln 2 / 2) |}.
Proof.
  split; [exact doubling_time_growing|].
  apply (proj1 (doubling_time_nonnegative unit never_converges growing growing
                  (Finite 2) _ eq_refl doubling_time_growing)).
Defined.

Lemma properties_without_convergence_witness :
  unfitted (new_instance single_observation) /\
  growth_curve_data (new_instance single_observation) <> [] /\
  exists self',
    fit_calls self' = 1%nat /\
    doubling_time unit never_converges (new_instance single_observation)
      = Ok ({| total_microseconds := 0 |}, self').
Proof.
  assert (Hun : unfitted (new_instance single_observation)) by (repeat split).
  split; [exact Hun|]. split; [discriminate|].
  destruct (properties_without_convergence unit never_converges
              (new_instance single_observation) Hun ltac:(discriminate)
              (fun ts ms p0 _ => eq_refl))
    as (self' & Hcalls & _ & _ & _ & Hd).
  exists self'. split; [exact Hcalls | exact Hd].
Defined.

End FitMore.

(** ** Lemmas: [sorted] on the growth data *)

Module SortedFacts.
Import Py PyFacts FitNotions.
Local Open Scope R_scope.

Lemma insert_sorted_perm {A : Type} (ltb : A -> A -> bool) (x : A) (l : list A) :
  Permutation (insert_sorted ltb x l) (x :: l).
Proof.
  induction l as [|y l IH]; cbn; [reflexivity|].
  destruct (ltb y x); [|reflexivity].
  rewrite IH. apply perm_swap.
Qed.

Lemma sorted_perm {A : Type} (ltb : A -> A -> bool) (l : list A) :
  Permutation (sorted ltb l) l.
Proof.
  unfold sorted. induction l as [|x l IH]; cbn [fold_right]; [reflexivity|].
  rewrite insert_sorted_perm. now constructor.
Qed.

Lemma timedelta_eq (a b : timedelta) :
  total_microseconds a = total_microseconds b -> a = b.
Proof. destruct a, b. cbn. now intros ->. Qed.

Lemma insert_sorted_earlier (x : timedelta) (l : list timedelta) :
  ~ In x l ->
  StronglySorted earlier l ->
  StronglySorted earlier (insert_sorted timedelta_ltb x l).
Proof.
  intros Hout Hs. induction Hs as [|y l Hs IH Hall]; cbn.
  - repeat constructor.
  - unfold timedelta_ltb at 1.
    destruct (Z.ltb_spec (total_microseconds y) (total_microseconds x)) as [E|E].
    + constructor.
      * apply IH. intros Hin. apply Hout. now right.
      * rewrite (insert_sorted_perm timedelta_ltb x l).
        constructor; [exact E | exact Hall].
    + assert (Hlt : earlier x y).
      { destruct (Z.eq_dec (total_microseconds x) (total_microseconds y))
          as [Heq|Hne]; [|unfold earlier; lia].
        exfalso. apply Hout. left. symmetry. now apply timedelta_eq. }
      constructor; [constructor; assumption|].
      constructor; [exact Hlt|].
      eapply Forall_impl; [|exact Hall]. unfold earlier in *. intros; lia.
Qed.

(** The keys come out strictly increasing. *)
Lemma sorted_keys_earlier (l : list timedelta) :
  NoDup l -> StronglySorted earlier (sorted timedelta_ltb l).
Proof.
  unfold sorted. induction 1 as [|x l Hout Hnd IH]; cbn [fold_right];
    [constructor|].
  apply insert_sorted_earlier; [|exact IH].
  intros Hin. apply Hout.
  apply (Permutation_in _ (sorted_perm timedelta_ltb l)). exact Hin.
Qed.

Lemma insert_sorted_keys (x : timedelta * R) (l : list (timedelta * R)) :
  ~ In (fst x) (map fst l) ->
  map fst (insert_sorted item_ltb x l)
  = insert_sorted timedelta_ltb (fst x) (map fst l).
Proof.
  induction l as [|y l IH]; intros Hout; [reflexivity|]. cbn.
  assert (Hitem : item_ltb y x = timedelta_ltb (fst y) (fst x)).
  { unfold item_ltb. destruct (timedelta_ltb (fst y) (fst x)) eqn:E;
      [reflexivity|].
    cbn [orb]. unfold timedelta_ltb in *. apply Z.ltb_ge in E.
    destruct (Z.eq_dec (total_microseconds (fst x)) (total_microseconds (fst y)))
      as [Heq|Hne].
    - exfalso. apply Hout. left. symmetry. now apply timedelta_eq.
    - now rewrite (proj2 (Z.ltb_lt _ _)) by lia. }
  rewrite Hitem. destruct (timedelta_ltb (fst y) (fst x)); cbn; [|reflexivity].
  rewrite IH; [reflexivity|]. intros Hin. apply Hout. now right.
Qed.

(** With each key once, sorting the items sorts the keys the same way: the
    two sorted sequences stay aligned. *)
Lemma sorted_items_keys (data : list (timedelta * R)) :
  NoDup (map fst data) ->
  map fst (sorted item_ltb data) = sorted timedelta_ltb (map fst data).
Proof.
  unfold sorted. induction data as [|x data IH]; intros Hnd; [reflexivity|].
  inversion Hnd as [|? ? Hout Hrest]; subst. cbn [fold_right map].
  rewrite insert_sorted_keys, (IH Hrest); [reflexivity|].
  intros Hin. apply Hout.
  apply (Permutation_in _ (Permutation_map fst (sorted_perm item_ltb data))).
  exact Hin.
Qed.

Lemma StronglySorted_map {A B : Type} (f : A -> B) (r : B -> B -> Prop)
    (l : list A) :
  StronglySorted r (map f l) -> StronglySorted (fun a b => r (f a) (f b)) l.
Proof.
  induction l as [|x l IH]; cbn; intros H; [constructor|].
  inversion H as [|? ? Hs Hall]; subst. constructor; [now apply IH|].
  rewrite Forall_map in Hall. exact Hall.
Qed.

(** Two strictly increasing sequences with the same elements are equal. *)
Lemma StronglySorted_unique {A : Type} (r : A -> A -> Prop) (l1 l2 : list A) :
  (forall a, ~ r a a) ->
  (forall a b c, r a b -> r b c -> r a c) ->
  StronglySorted r l1 -> StronglySorted r l2 -> Permutation l1 l2 ->
  l1 = l2.
Proof.
  intros Hirr Htrans Hs1. revert l2.
  induction Hs1 as [|x l1 Hs1 IH Hall1]; intros l2 Hs2 Hperm.
  - apply Permutation_nil in Hperm. now subst.
  - destruct l2 as [|y l2].
    { apply Permutation_sym, Permutation_nil in Hperm. discriminate. }
    inversion Hs2 as [|? ? Hs2' Hall2]; subst.
    assert (Hxy : x = y).
    { assert (Hx : In x (y :: l2))
        by (apply (Permutation_in _ Hperm); now left).
      assert (Hy : In y (x :: l1))
        by (apply (Permutation_in _ (Permutation_sym Hperm)); now left).
      destruct Hx as [->|Hx]; [reflexivity|].
      destruct Hy as [->|Hy]; [reflexivity|].
      rewrite Forall_forall in Hall1, Hall2.
      exfalso. apply (Hirr x). eapply Htrans; [apply (Hall1 y Hy)|].
      apply (Hall2 x Hx). }
    subst y. f_equal. apply IH; [exact Hs2'|].
    now apply Permutation_cons_inv in Hperm.
Qed.

(** With each key once, the sorted items do not depend on the order in
    which the dict was filled. *)
Lemma sorted_items_permutation (data data' : list (timedelta * R)) :
  NoDup (map fst data) -> Permutation data data' ->
  sorted item_ltb data = sorted item_ltb data'.
Proof.
  intros Hnd Hperm.
  assert (Hnd' : NoDup (map fst data')).
  { eapply Permutation_NoDup; [|exact Hnd]. now apply Permutation_map. }
  apply (StronglySorted_unique (fun a b => earlier (fst a) (fst b))).
  - intros a. unfold earlier. lia.
  - intros a b c. unfold earlier. lia.
  - apply StronglySorted_map. rewrite sorted_items_keys by exact Hnd.
    now apply sorted_keys_earlier.
  - apply StronglySorted_map. rewrite sorted_items_keys by exact Hnd'.
    now apply sorted_keys_earlier.
  - rewrite (sorted_perm item_ltb data), Hperm.
    symmetry. apply sorted_perm.
Qed.

End SortedFacts.

(** ** Theorems: the order of the growth data *)

Module FitOrder.
Import Py PyFacts Notions FitNotions GrowthCurve FloatFacts FitTheorems.
Import FitMore SortedFacts Samples.
Local Open Scope R_scope.

Lemma fit_arguments_inv (self : instance) (init : option (list R))
    (ts ms p0 : list R) :
  fit_arguments self init = Ok (ts, ms, p0) ->
  ts = map total_seconds (sorted timedelta_ltb (map fst (growth_curve_data self)))
  /\ ms = map snd (sorted item_ltb (growth_curve_data self)).
Proof.
  unfold fit_arguments.
  destruct (estimate_parameters _ _) as [[[lag gr] cc]|]; cbn [bind];
    [|discriminate].
  destruct init as [params|]; cbn [bind].
  - intros [= <- <- _]. auto.
  - destruct (min _); cbn [bind]; [|discriminate]. intros [= <- <- _]. auto.
Qed.

Lemma StronglySorted_map_intro {A B : Type} (f : A -> B) (r : B -> B -> Prop)
    (l : list A) :
  StronglySorted (fun a b => r (f a) (f b)) l -> StronglySorted r (map f l).
Proof.
  induction 1 as [|x l Hs IH Hall]; cbn; constructor; [exact IH|].
  rewrite Forall_map. exact Hall.
Qed.

Lemma combine_map {A B C : Type} (f : A -> B) (g : A -> C) (l : list A) :
  combine (map f l) (map g l) = map (fun x => (f x, g x)) l.
Proof. induction l as [|x l IH]; cbn; [reflexivity | now rewrite IH]. Qed.

Lemma earlier_seconds (a b : timedelta) :
  earlier a b -> total_seconds a <= total_seconds b.
Proof.
  unfold earlier, total_seconds. intros H. apply IZR_lt in H. lra.
Qed.

Lemma StronglySorted_weaken {A : Type} (r r' : A -> A -> Prop) (l : list A) :
  (forall a b, r a b -> r' a b) -> StronglySorted r l -> StronglySorted r' l.
Proof.
  intros Himp. induction 1 as [|x l Hs IH Hall]; constructor; [exact IH|].
  eapply Forall_impl; [|exact Hall]. intros b. apply Himp.
Qed.

(** X20. With each timestamp once in the growth data, what the fit hands
    to the optimizer is the data in time order: the timestamps are the
    seconds of the keys, taken in strictly increasing order of duration, so
    that they never decrease, and timestamp i is paired with the
    measurement taken at it. *)
Theorem fit_arguments_in_time_order (self : instance) (init : option (list R))
    (ts ms p0 : list R) :
  NoDup (map fst (growth_curve_data self)) ->
  fit_arguments self init = Ok (ts, ms, p0) ->
  (exists keys,
     ts = map total_seconds keys /\
     StronglySorted earlier keys /\
     Permutation keys (map fst (growth_curve_data self))) /\
  StronglySorted Rle ts /\
  length ts = length ms /\
  Permutation (combine ts ms) (map observation (growth_curve_data self)).
Proof.
  intros Hnd Hargs. apply fit_arguments_inv in Hargs as (-> & ->).
  pose proof (sorted_keys_earlier _ Hnd) as Hsorted.
  split; [|split; [|split]].
  - eexists. split; [reflexivity|]. split; [exact Hsorted|]. apply sorted_perm.
  - apply StronglySorted_map_intro.
    apply (StronglySorted_weaken earlier); [exact earlier_seconds | exact Hsorted].
  - now rewrite !length_map, !FitTheorems.sorted_length, length_map.
  - rewrite <- (sorted_items_keys _ Hnd). rewrite map_map, combine_map.
    apply (Permutation_map observation), sorted_perm.
Qed.

Lemma fit_arguments_permutation (s1 s2 : instance) (init : option (list R)) :
  NoDup (map fst (growth_curve_data s1)) ->
  Permutation (growth_curve_data s1) (growth_curve_data s2) ->
  fit_arguments s1 init = fit_arguments s2 init.
Proof.
  intros Hnd Hperm.
  assert (Hnd' : NoDup (map fst (growth_curve_data s2))).
  { eapply Permutation_NoDup; [|exact Hnd]. now apply Permutation_map. }
  unfold fit_arguments.
  rewrite <- (sorted_items_keys _ Hnd), <- (sorted_items_keys _ Hnd').
  now rewrite (sorted_items_permutation _ _ Hnd Hperm).
Qed.

Section WithOptimizer.

Variable covariance : Type.
Variable curve_fit :
  curve -> list R -> list R -> list R -> result (list float * covariance).

Abbreviation fit := (fit_growth_curve covariance curve_fit).

(** X21. The fit depends on the growth data as a mapping only: two
    instances whose data hold the same observations, filled in any order
    (and whatever parameters they held before), are fitted to the same
    lag_time, growth_rate and carrying_capacity, or fail with the same
    exception. *)
Theorem fit_growth_curve_order (s1 s2 : instance) (init : option (list R)) :
  NoDup (map fst (growth_curve_data s1)) ->
  Permutation (growth_curve_data s1) (growth_curve_data s2) ->
  (forall s1', fit s1 init = Ok s1' ->
     exists s2', fit s2 init = Ok s2' /\ same_parameters s1' s2') /\
  (forall e, fit s1 init = Raise e -> fit s2 init = Raise e).
Proof.
  intros Hnd Hperm.
  rewrite !(fit_growth_curve_split covariance curve_fit).
  rewrite (fit_arguments_permutation s1 s2 init Hnd Hperm).
  destruct (fit_arguments s2 init) as [[[ts ms] p0]|e0]; cbn [bind].
  2:{ split; [discriminate | auto]. }
  destruct (__fit_curve _ _ _ _ _ _) as [results|e0]; cbn [bind].
  2:{ split; [discriminate | auto]. }
  match goal with
  | |- context [bind ?m _] => destruct m as [[[l g] c]|e0]
  end; cbn [bind].
  2:{ split; [discriminate | auto]. }
  destruct (timedelta_seconds l) as [lag|e0]; cbn [bind].
  2:{ split; [discriminate | auto]. }
  split; [|discriminate].
  intros s1' [= <-]. eexists. split; [reflexivity|].
  unfold same_parameters. cbn. auto.
Qed.

End WithOptimizer.

Lemma shuffled_keys_once : NoDup (map fst shuffled).
Proof.
  unfold shuffled. cbn [map fst].
  repeat constructor; cbn; intuition discriminate.
Qed.

Lemma shuffled_ordered : Permutation shuffled ordered.
Proof.
  unfold shuffled, ordered.
  eapply perm_trans; [apply perm_swap|]. apply perm_skip, perm_swap.
Qed.

Lemma fit_converges (data : list (timedelta * R)) :
  data <> [] ->
  exists self',
    fit_growth_curve unit Optimizers.converges (new_instance data) None
      = Ok self' /\
    __growth_rate self' = Some (Finite 2).
Proof.
  intros Hdata.
  destruct (fit_arguments_defined (new_instance data) None Hdata)
    as (ts & ms & p0 & Hargs).
  rewrite (fit_converged unit Optimizers.converges (new_instance data) None
             ts ms p0 (Finite 1) (Finite 20) (Finite 2) (Finite 50) tt
             Hargs eq_refl).
  rewrite (proj1 (timedelta_seconds_finite 20) representable_twenty).
  eexists. split; reflexivity.
Qed.

Lemma fit_arguments_in_time_order_witness :
  NoDup (map fst (growth_curve_data (new_instance shuffled))) /\
  exists ts ms p0,
    fit_arguments (new_instance shuffled) None = Ok (ts, ms, p0) /\
    StronglySorted Rle ts /\
    Permutation (combine ts ms) (map observation shuffled).
Proof.
  split; [exact shuffled_keys_once|].
  destruct (fit_arguments_defined (new_instance shuffled) None
              ltac:(discriminate)) as (ts & ms & p0 & Hargs).
  exists ts, ms, p0. split; [exact Hargs|].
  destruct (fit_arguments_in_time_order (new_instance shuffled) None ts ms p0
              shuffled_keys_once Hargs) as (_ & Hsorted & _ & Hperm).
  split; [exact Hsorted | exact Hperm].
Defined.

Lemma fit_growth_curve_order_witness :
  NoDup (map fst shuffled) /\
  Permutation shuffled ordered /\
  exists s1' s2',
    fit_growth_curve unit Optimizers.converges (new_instance shuffled) None
      = Ok s1' /\
    fit_growth_curve unit Optimizers.converges (new_instance ordered) None
      = Ok s2' /\
    same_parameters s1' s2'.
Proof.
  split; [exact shuffled_keys_once|]. split; [exact shuffled_ordered|].
  destruct (fit_converges shuffled ltac:(discriminate)) as (s1' & Hfit & _).
  destruct (proj1 (fit_growth_curve_order unit Optimizers.converges
                     (new_instance shuffled) (new_instance ordered) None
                     shuffled_keys_once shuffled_ordered) s1' Hfit)
    as (s2' & Hfit' & Hsame).
  exists s1', s2'. auto.
Defined.

End FitOrder.

(** ** Lemmas: sorting numbers and the median *)

Module MedianFacts.
Import Py PyFacts SortedFacts Outliers UtilityNotions.
Local Open Scope R_scope.

Lemma insert_sorted_Rle (x : R) (l : list R) :
  StronglySorted Rle l -> StronglySorted Rle (insert_sorted Rltb x l).
Proof.
  induction 1 as [|y l Hs IH Hall]; cbn.
  - repeat constructor.
  - destruct (Rltb y x) eqn:E.
    + apply Rltb_true in E. constructor; [exact IH|].
      rewrite (insert_sorted_perm Rltb x l). constructor; [lra | exact Hall].
    + apply Rltb_false in E. constructor; [now constructor|].
      constructor; [exact E|].
      eapply Forall_impl; [|exact Hall]. intros; lra.
Qed.

Lemma sorted_Rle (l : list R) : StronglySorted Rle (sorted Rltb l).
Proof.
  unfold sorted. induction l as [|x l IH]; cbn [fold_right]; [constructor|].
  now apply insert_sorted_Rle.
Qed.

Lemma sorted_length_R (l : list R) : length (sorted Rltb l) = length l.
Proof. apply Permutation_length, sorted_perm. Qed.

Lemma StronglySorted_nth (s : list R) (i j : nat) :
  StronglySorted Rle s -> (i <= j < length s)%nat ->
  nth i s 0 <= nth j s 0.
Proof.
  intros Hs. revert i j. induction Hs as [|x s Hs IH Hall]; intros i j Hij.
  - cbn in Hij. lia.
  - destruct i as [|i], j as [|j]; cbn in *; try lia; try lra.
    + rewrite Forall_forall in Hall. apply Hall, nth_In. lia.
    + apply IH. lia.
Qed.

Lemma even_half (n : nat) : Nat.even n = true -> n = (2 * (n / 2))%nat.
Proof.
  intros H. apply Nat.even_spec, Nat.Even_double in H.
  rewrite Nat.div2_div in H. unfold Nat.double in H. lia.
Qed.

Lemma odd_half (n : nat) : Nat.even n = false -> n = (2 * (n / 2) + 1)%nat.
Proof.
  intros H. assert (Ho : Nat.odd n = true)
    by (rewrite <- Nat.negb_even, H; reflexivity).
  apply Nat.odd_spec, Nat.Odd_double in Ho.
  rewrite Nat.div2_div in Ho. unfold Nat.double in Ho. lia.
Qed.

Lemma not_above_perm (bound : R) (a b : list R) :
  Permutation a b -> length (not_above bound a) = length (not_above bound b).
Proof.
  unfold not_above. induction 1; cbn; try congruence.
  - destruct (Rleb x bound); cbn; congruence.
  - destruct (Rleb x bound), (Rleb y bound); reflexivity.
Qed.

(** A sorted sequence has at least [k] values not above its value at
    position k - 1. *)
Lemma not_above_prefix (s : list R) (k : nat) (bound : R) :
  StronglySorted Rle s -> (1 <= k <= length s)%nat ->
  nth (k - 1) s 0 <= bound ->
  (k <= length (not_above bound s))%nat.
Proof.
  intros Hs Hk Hbound.
  rewrite <- (firstn_skipn k s) at 1. unfold not_above.
  rewrite filter_app, length_app.
  assert (Hall : forallb (fun x => Rleb x bound) (firstn k s) = true).
  { apply forallb_forall. intros x Hx. apply Rleb_true.
    apply In_nth with (d := 0) in Hx as (i & Hi & <-).
    rewrite length_firstn in Hi. rewrite nth_firstn.
    destruct (Nat.ltb_spec i k); [|lia].
    pose proof (StronglySorted_nth s i (k - 1) Hs ltac:(lia)). lra. }
  assert (Hfilter : filter (fun x => Rleb x bound) (firstn k s) = firstn k s).
  { clear - Hall. induction (firstn k s) as [|x l IH]; [reflexivity|].
    cbn in *. apply andb_true_iff in Hall as [-> Hall]. now rewrite IH. }
  rewrite Hfilter, length_firstn. lia.
Qed.

(** At least half of the values are not above the median. *)
Lemma median_half (a : list R) :
  (length a <= 2 * length (not_above (median a) a))%nat.
Proof.
  destruct a as [|x0 a0]; [cbn; lia|]. set (a := x0 :: a0).
  assert (Hn : (1 <= length a)%nat) by (cbn; lia).
  rewrite (not_above_perm _ _ _ (Permutation_sym (sorted_perm Rltb a))).
  pose proof (sorted_Rle a) as Hs.
  pose proof (sorted_length_R a) as Hlen.
  unfold median. destruct (Nat.even (length a)) eqn:E.
  - pose proof (even_half _ E) as Hhalf.
    match goal with
    | |- (_ <= 2 * length (not_above ?m _))%nat => set (bound := m)
    end.
    assert (Hk : (length a / 2 <= length (not_above bound (sorted Rltb a)))%nat).
    { apply not_above_prefix; [exact Hs | lia |]. subst bound.
      pose proof (StronglySorted_nth (sorted Rltb a) (length a / 2 - 1)
                    (length a / 2) Hs ltac:(lia)). lra. }
    lia.
  - pose proof (odd_half _ E) as Hhalf.
    match goal with
    | |- (_ <= 2 * length (not_above ?m _))%nat => set (bound := m)
    end.
    assert (Hk : (length a / 2 + 1
                  <= length (not_above bound (sorted Rltb a)))%nat).
    { apply not_above_prefix; [exact Hs | lia |]. subst bound.
      replace (length a / 2 + 1 - 1)%nat with (length a / 2)%nat by lia. lra. }
    lia.
Qed.

Lemma nth_nonneg (s : list R) (i : nat) :
  Forall (fun x => 0 <= x) s -> 0 <= nth i s 0.
Proof.
  intros H. destruct (Nat.ltb_spec i (length s)).
  - rewrite Forall_forall in H. apply H, nth_In. exact H0.
  - rewrite nth_overflow by exact H0. lra.
Qed.

Lemma median_nonneg (a : list R) :
  Forall (fun x => 0 <= x) a -> 0 <= median a.
Proof.
  intros H.
  assert (Hs : Forall (fun x => 0 <= x) (sorted Rltb a)).
  { rewrite Forall_forall in *. intros x Hx. apply H.
    apply (Permutation_in _ (sorted_perm Rltb a)). exact Hx. }
  unfold median. destruct (Nat.even (length a)).
  - pose proof (nth_nonneg _ (length a / 2 - 1) Hs).
    pose proof (nth_nonneg _ (length a / 2) Hs). lra.
  - now apply nth_nonneg.
Qed.

End MedianFacts.

(** ** Theorems: [is_outlier] *)

Module OutlierTheorems.
Import Py PyFacts SortedFacts Outliers UtilityNotions MedianFacts.
Local Open Scope R_scope.

Lemma distance_nonneg (center row : list R) : 0 <= distance center row.
Proof. apply sqrt_pos. Qed.

Lemma rows_of_length (points : ndarray) :
  length (rows_of points) = observations points.
Proof. destruct points; cbn; [apply length_map | reflexivity]. Qed.

Lemma is_outlier_rows (points : ndarray) (thresh : R) :
  is_outlier points thresh
  = map (above (median (map (distance (median_axis0 (rows_of points)))
                            (rows_of points))) thresh)
        (map (distance (median_axis0 (rows_of points))) (rows_of points)).
Proof. destruct points; reflexivity. Qed.

(** A difference not above the median difference is not flagged. *)
Lemma above_false (deviation thresh diff : R) :
  0.6745 <= thresh -> 0 <= diff <= deviation ->
  above deviation thresh diff = false.
Proof.
  intros Ht Hd. unfold above. destruct (Req_dec_T deviation 0) as [E|Hne].
  - apply Rgtb_false. lra.
  - apply Rgtb_false. assert (Hpos : 0 < deviation) by lra.
    apply Rmult_le_reg_r with deviation; [exact Hpos|].
    replace (0.6745 * diff / deviation * deviation) with (0.6745 * diff)
      by (field; lra).
    nra.
Qed.

Lemma unflagged_length (f : R -> bool) (bound : R) (l : list R) :
  (forall x, In x l -> x <= bound -> f x = false) ->
  (length (not_above bound l) <= length (unflagged (map f l)))%nat.
Proof.
  unfold not_above, unflagged. induction l as [|x l IH]; intros H; cbn; [lia|].
  assert (IH' := IH (fun y Hy => H y (or_intror Hy))).
  destruct (Rleb x bound) eqn:E.
  - apply Rleb_true in E. rewrite (H x (or_introl eq_refl) E). cbn. lia.
  - destruct (f x); cbn; lia.
Qed.

(** X22. [is_outlier] returns one flag per observation, and with a
    threshold of at least 1 (the default is 3.5) it never flags more than
    half of the observations: an observation whose distance is not above
    the median distance has a score of at most 0.6745. *)
Theorem is_outlier_at_most_half (points : ndarray) (thresh : R) :
  1 <= thresh ->
  length (is_outlier points thresh) = observations points /\
  (observations points
   <= 2 * length (unflagged (is_outlier points thresh)))%nat.
Proof.
  intros Ht1. assert (Ht : 0.6745 <= thresh) by lra.
  rewrite is_outlier_rows, <- rows_of_length.
  set (rows := rows_of points).
  set (diff := map (distance (median_axis0 rows)) rows).
  assert (Hlen : length diff = length rows) by apply length_map.
  split; [now rewrite length_map|].
  assert (Hnonneg : Forall (fun x => 0 <= x) diff).
  { apply Forall_forall. intros x Hx. apply in_map_iff in Hx as (row & <- & _).
    apply distance_nonneg. }
  pose proof (median_half diff) as Hhalf.
  pose proof (unflagged_length (above (median diff) thresh) (median diff) diff)
    as Hun.
  assert (Hle : (length (not_above (median diff) diff)
                 <= length (unflagged (map (above (median diff) thresh) diff)))%nat).
  { apply Hun. intros x Hx Hbound. apply above_false; [exact Ht|].
    rewrite Forall_forall in Hnonneg. split; [now apply Hnonneg | exact Hbound]. }
  lia.
Qed.

Lemma is_outlier_at_most_half_witness :
  1 <= 3.5 /\
  length (is_outlier (Array1 readings) 3.5) = 3%nat /\
  (3 <= 2 * length (unflagged (is_outlier (Array1 readings) 3.5)))%nat.
Proof.
  assert (Ht : 1 <= 3.5) by lra.
  split; [exact Ht|].
  apply (is_outlier_at_most_half (Array1 readings) 3.5 Ht).
Defined.

Lemma sorted_repeat (c : R) (n : nat) : sorted Rltb (repeat c n) = repeat c n.
Proof.
  unfold sorted. induction n as [|n IH]; cbn [repeat fold_right]; [reflexivity|].
  rewrite IH. destruct n as [|n]; cbn; [reflexivity|].
  now rewrite (proj2 (Rltb_false c c) (Rle_refl c)).
Qed.

Lemma median_repeat (c : R) (n : nat) : (1 <= n)%nat -> median (repeat c n) = c.
Proof.
  intros Hn. unfold median. rewrite sorted_repeat, repeat_length.
  destruct (Nat.even n) eqn:E.
  - pose proof (even_half n E).
    rewrite !nth_repeat_lt by lia. lra.
  - pose proof (odd_half n E). now rewrite nth_repeat_lt by lia.
Qed.

Lemma map_nth_all (l : list R) :
  map (fun j => nth j l 0) (seq 0 (length l)) = l.
Proof.
  induction l as [|x l IH]; [reflexivity|].
  cbn [length seq map nth]. f_equal.
  rewrite <- seq_shift, map_map. exact IH.
Qed.

Lemma median_axis0_repeat (row : list R) (n : nat) :
  (1 <= n)%nat -> median_axis0 (repeat row n) = row.
Proof.
  intros Hn. unfold median_axis0.
  destruct n as [|n]; [lia|]. cbn [repeat].
  rewrite <- (map_nth_all row) at 2. apply map_ext. intros j.
  change (row :: repeat row n) with (repeat row (S n)).
  unfold column. rewrite map_repeat. apply median_repeat. lia.
Qed.

Lemma distance_self (row : list R) : distance row row = 0.
Proof.
  unfold distance.
  assert (H : Np.sum (map (fun pm => Rsqr (fst pm - snd pm)) (combine row row)) = 0).
  { induction row as [|x row IH]; [reflexivity|].
    cbn. unfold Np.sum in IH. rewrite IH.
    replace (x - x) with 0 by lra. rewrite Rsqr_0. lra. }
  rewrite H. apply sqrt_0.
Qed.

Lemma above_zero (thresh : R) : above 0 thresh 0 = false.
Proof.
  unfold above. destruct (Req_dec_T 0 0) as [_|H]; [|lra].
  apply Rgtb_false. lra.
Qed.

(** X23. Observations that are all the same are never flagged, whatever the
    threshold (the zero deviation makes every score nan). *)
Theorem is_outlier_identical (row : list R) (value : R) (n : nat) (thresh : R) :
  is_outlier (Array2 (repeat row n)) thresh = repeat false n /\
  is_outlier (Array1 (repeat value n)) thresh = repeat false n.
Proof.
  assert (H : forall r, map (above (median (map (distance (median_axis0 (repeat r n)))
                                      (repeat r n))) thresh)
                  (map (distance (median_axis0 (repeat r n))) (repeat r n))
              = repeat false n).
  { intros r. destruct n as [|n]; [reflexivity|].
    rewrite median_axis0_repeat by lia.
    rewrite map_repeat, distance_self, median_repeat by lia.
    now rewrite map_repeat, above_zero. }
  split.
  - rewrite is_outlier_rows. cbn [rows_of]. apply H.
  - rewrite is_outlier_rows. cbn [rows_of]. rewrite map_repeat. apply H.
Qed.

Lemma median_axis0_values (values : list R) :
  values <> [] ->
  median_axis0 (map (fun v => [v]) values) = [median values].
Proof.
  destruct values as [|v values]; [congruence|]. intros _.
  unfold median_axis0. cbn [map length seq]. f_equal.
  f_equal. unfold column. cbn [map nth]. f_equal.
  rewrite map_map. cbn. apply map_id.
Qed.

Lemma distance_value (center value : R) :
  distance [center] [value] = Rabs (value - center).
Proof.
  unfold distance, Np.sum. cbn. rewrite Rplus_0_r. apply sqrt_Rsqr_abs.
Qed.

Lemma is_outlier_values (values : list R) (thresh : R) :
  is_outlier (Array1 values) thresh
  = map (above (median (map (fun v => Rabs (v - median values)) values)) thresh)
        (map (fun v => Rabs (v - median values)) values).
Proof.
  destruct values as [|v0 values0]; [reflexivity|].
  set (values := v0 :: values0).
  assert (Hne : values <> []) by discriminate.
  rewrite is_outlier_rows. cbn [rows_of].
  rewrite (median_axis0_values values Hne).
  rewrite (map_map (fun v => [v]) (distance [median values])).
  assert (Hd : map (fun x => distance [median values] [x]) values
               = map (fun v => Rabs (v - median values)) values).
  { apply map_ext. intros x. apply distance_value. }
  now rewrite Hd.
Qed.


End OutlierTheorems.

(** ** Theorems: align.py *)

Module AlignTheorems.
Import Align.

Section DescriptorAlignTransform.

Variables image descriptors keypoints matches robust transform : Type.
Variable _extract_keypoints : image -> result (descriptors * keypoints).
Variable match_descriptors : descriptors -> descriptors -> result matches.
Variable select : keypoints -> matches -> Z -> result keypoints.
Variable ransac : keypoints -> keypoints -> result robust.
Variable rotation_of : robust -> result transform.
Variable translation_of : robust -> result transform.
Variable add : transform -> transform -> result transform.
Variable inverse : transform -> transform.
Variable warp : image -> transform -> Z -> bool -> result image.

Abbreviation transform_for :=
  (align_transform image descriptors keypoints matches robust transform
     _extract_keypoints match_descriptors select ransac rotation_of
     translation_of add).
Abbreviation aligned_with :=
  (align image descriptors keypoints matches robust transform
     _extract_keypoints match_descriptors select ransac rotation_of
     translation_of add inverse warp).

(** Without matches the transform cannot be computed: RuntimeError. *)
Lemma align_transform_no_matches (self : instance descriptors keypoints)
    (img : image) (d : descriptors) (k : keypoints) (e : exn) :
  _extract_keypoints img = Ok (d, k) ->
  (matched <- match_descriptors (_image_ref_descriptors _ _ self) d ;;
   matches_ref <- select (_image_ref_keypoints _ _ self) matched 0 ;;
   found <- select k matched 1 ;;
   ransac matches_ref found) = Raise e ->
  is_RuntimeError_or_IndexError e = true ->
  transform_for self img = Raise RuntimeError.
Proof.
  intros Hextract Hstage He. unfold align_transform, image_ref.
  rewrite Hextract. cbn [bind]. rewrite Hstage. cbn [try_except].
  rewrite He. reflexivity.
Qed.

(** X26. When the second alignment pass finds no matches (the matching of
    the once-aligned image, the selection of its keypoints or RANSAC raises
    RuntimeError or IndexError), [align] does not fail: it returns the
    image warped by the first-pass transform alone, exactly what
    [precise = False] returns, and emits one RuntimeWarning. *)
Theorem align_second_pass_without_matches
    (self : instance descriptors keypoints) (img image_aligned : image)
    (first : transform) (d : descriptors) (k : keypoints) (e : exn) :
  transform_for self img = Ok first ->
  warp img (inverse first) 1 false = Ok image_aligned ->
  _extract_keypoints image_aligned = Ok (d, k) ->
  (matched <- match_descriptors (_image_ref_descriptors _ _ self) d ;;
   matches_ref <- select (_image_ref_keypoints _ _ self) matched 0 ;;
   found <- select k matched 1 ;;
   ransac matches_ref found) = Raise e ->
  is_RuntimeError_or_IndexError e = true ->
  aligned_with self img true
    = (aligned <- warp img (inverse first) 3 true ;;
       Ok (aligned, [RuntimeWarning])) /\
  aligned_with self img false
    = (aligned <- warp img (inverse first) 3 true ;; Ok (aligned, [])).
Proof.
  intros Hfirst Hwarp Hextract Hstage He.
  pose proof (align_transform_no_matches self image_aligned d k e
                Hextract Hstage He) as Hsecond.
  unfold align. rewrite Hfirst. cbn [bind]. rewrite Hwarp. cbn [bind].
  rewrite Hsecond. cbn [bind try_except is_RuntimeError].
  split; reflexivity.
Qed.

(** X27. An exception of the second pass that is not a RuntimeError is not
    absorbed: when the keypoints of the once-aligned image cannot be
    extracted, [align] with [precise = True] raises that exception, although
    [precise = False] on the same image goes on to warp it. *)
Theorem align_second_pass_propagates
    (self : instance descriptors keypoints) (img image_aligned : image)
    (first : transform) (e : exn) :
  transform_for self img = Ok first ->
  warp img (inverse first) 1 false = Ok image_aligned ->
  _extract_keypoints image_aligned = Raise e ->
  e <> RuntimeError ->
  aligned_with self img true = Raise e /\
  aligned_with self img false
    = (aligned <- warp img (inverse first) 3 true ;; Ok (aligned, [])).
Proof.
  intros Hfirst Hwarp Hextract He.
  unfold align. rewrite Hfirst. cbn [bind]. rewrite Hwarp. cbn [bind].
  unfold align_transform at 1, image_ref. rewrite Hextract.
  cbn [bind try_except]. split; [|reflexivity].
  destruct e; cbn; try reflexivity. congruence.
Qed.

End DescriptorAlignTransform.

Lemma align_second_pass_without_matches_witness :
  align nat nat nat unit nat nat ToyAlign.extract ToyAlign.matching
    ToyAlign.select ToyAlign.ransac ToyAlign.part ToyAlign.part ToyAlign.add
    ToyAlign.inverse ToyAlign.warp ToyAlign.reference 3%nat true
  = Ok (9%nat, [RuntimeWarning]).
Proof.
  apply (proj1 (align_second_pass_without_matches nat nat nat unit nat nat
                  ToyAlign.extract ToyAlign.matching ToyAlign.select
                  ToyAlign.ransac ToyAlign.part ToyAlign.part ToyAlign.add
                  ToyAlign.inverse ToyAlign.warp ToyAlign.reference
                  3%nat 0%nat 6%nat 0%nat 0%nat IndexError
                  eq_refl eq_refl eq_refl eq_refl eq_refl)).
Defined.

Lemma align_second_pass_propagates_witness :
  ValueError <> RuntimeError /\
  align nat nat nat unit nat nat ToyAlign.extract_strict ToyAlign.matching
    ToyAlign.select ToyAlign.ransac ToyAlign.part ToyAlign.part ToyAlign.add
    ToyAlign.inverse ToyAlign.warp ToyAlign.reference 3%nat true
  = Raise ValueError.
Proof.
  assert (Hne : ValueError <> RuntimeError) by discriminate.
  split; [exact Hne|].
  apply (proj1 (align_second_pass_propagates nat nat nat unit nat nat
                  ToyAlign.extract_strict ToyAlign.matching ToyAlign.select
                  ToyAlign.ransac ToyAlign.part ToyAlign.part ToyAlign.add
                  ToyAlign.inverse ToyAlign.warp ToyAlign.reference
                  3%nat 0%nat 6%nat ValueError
                  eq_refl eq_refl eq_refl Hne)).
Defined.

End AlignTheorems.
